(** * SpendingApp: the workspace ledger of [App.tsx], embedded and verified

    The React component keeps one [AppState] value and replaces it through
    [setState].  Every handler of the component is embedded here as a pure
    function from the state before the event (plus what the event carries:
    form fields, the answer given to a [confirm] dialog, the clock reading)
    to the state after it and the observable outcome (an [alert], the sign-in
    error banner, a silent return). *)

From Stdlib Require Import String Ascii List ZArith QArith Qabs Bool Lia.
From Stdlib Require Import DecimalString Sorted Permutation.
From Stdlib Require OrderedTypeEx.
Import ListNotations.

Local Open Scope string_scope.
Local Open Scope Z_scope.
Local Open Scope list_scope.

(* ================================================================== *)
(** ** JavaScript values used by the component *)

(** [number]: finite values are exact rationals; [NaN] and the two
    infinities are kept because [parseFloat] and [/] produce them.
    Rounding within the finite range and the sign of zero are not
    modelled. *)
Inductive number : Type :=
| NaN
| Inf (negative : bool)
| Num (q : Q).

Definition Qsign (q : Q) : comparison := (q ?= 0)%Q.

(** [a < b] on numbers; any comparison with [NaN] is [false]. *)
Definition num_ltb (a b : number) : bool :=
  match a, b with
  | NaN, _ | _, NaN => false
  | Inf na, Inf nb => na && negb nb
  | Inf na, Num _ => na
  | Num _, Inf nb => negb nb
  | Num x, Num y => match (x ?= y)%Q with Lt => true | _ => false end
  end.

(** [a === b] on numbers. *)
Definition num_eqb (a b : number) : bool :=
  match a, b with
  | Num x, Num y => Qeq_bool x y
  | Inf na, Inf nb => Bool.eqb na nb
  | _, _ => false
  end.

Definition num_add (a b : number) : number :=
  match a, b with
  | NaN, _ | _, NaN => NaN
  | Inf na, Inf nb => if Bool.eqb na nb then Inf na else NaN
  | Inf na, Num _ => Inf na
  | Num _, Inf nb => Inf nb
  | Num x, Num y => Num (Qred (x + y))
  end.

Definition num_opp (a : number) : number :=
  match a with
  | NaN => NaN
  | Inf n => Inf (negb n)
  | Num x => Num (Qred (- x))
  end.

Definition num_sub (a b : number) : number := num_add a (num_opp b).

Definition Qnegative (q : Q) : bool :=
  match Qsign q with Lt => true | _ => false end.

Definition num_mul (a b : number) : number :=
  match a, b with
  | NaN, _ | _, NaN => NaN
  | Inf na, Inf nb => Inf (xorb na nb)
  | Inf na, Num y =>
      match Qsign y with Eq => NaN | Lt => Inf (negb na) | Gt => Inf na end
  | Num x, Inf nb =>
      match Qsign x with Eq => NaN | Lt => Inf (negb nb) | Gt => Inf nb end
  | Num x, Num y => Num (Qred (x * y))
  end.

(** [a / b]: dividing by zero does not throw, it yields an infinity, or
    [NaN] for [0 / 0]. *)
Definition num_div (a b : number) : number :=
  match a, b with
  | NaN, _ | _, NaN => NaN
  | Inf _, Inf _ => NaN
  | Inf na, Num y => Inf (xorb na (Qnegative y))
  | Num _, Inf _ => Num 0
  | Num x, Num y =>
      match Qsign y with
      | Eq => match Qsign x with
              | Eq => NaN
              | Lt => Inf true
              | Gt => Inf false
              end
      | _ => Num (Qred (x / y))
      end
  end.

Definition num_of_Z (z : Z) : number := Num (inject_Z z).

(** A number is positive when [0 < n]. *)
Definition num_positive (n : number) : bool := num_ltb (num_of_Z 0) n.

(** *** Strings *)

Definition lower_char (c : ascii) : ascii :=
  let n := nat_of_ascii c in
  if (65 <=? n)%nat && (n <=? 90)%nat then ascii_of_nat (n + 32) else c.

(** [String.prototype.toLowerCase], on the ASCII letters. *)
Fixpoint toLowerCase (s : string) : string :=
  match s with
  | EmptyString => EmptyString
  | String c r => String (lower_char c) (toLowerCase r)
  end.

(** [String.prototype.includes]. *)
Fixpoint includes (s t : string) : bool :=
  String.prefix t s ||
  match s with
  | EmptyString => false
  | String _ r => includes r t
  end.

(** Truthiness of a string: only the empty string is falsy. *)
Definition truthy (s : string) : bool :=
  match s with EmptyString => false | _ => true end.

(** Decimal rendering of an integer, as a template literal or [toString]
    prints a clock reading. *)
Definition Z_to_string (z : Z) : string := NilZero.string_of_int (Z.to_int z).

(** *** [parseFloat]

    The builtin reads the longest decimal literal at the head of the text,
    after its leading blanks: an optional sign, then the word [Infinity] or
    digits with an optional fraction and an optional exponent; what follows
    is ignored and a text with no digit at all gives [NaN].  The builtin
    rounds the decimal it read to the nearest double.  Of that rounding the
    two ends are kept here, where it changes what kind of number comes out:
    a decimal at most half the least positive double gives [0], one at
    least half way from the largest double to [2 ^ 1024] gives an infinity.
    In between the value is the exact decimal.  Blanks outside ASCII are
    not skipped. *)

Definition digit_of (c : ascii) : option Z :=
  let n := Z.of_nat (nat_of_ascii c) in
  if (48 <=? n) && (n <=? 57) then Some (n - 48) else None.

(** Reads the digits at the head of [s] onto the accumulator: the value,
    how many digits were read, and the rest of the text. *)
Fixpoint read_digits (s : string) (acc : Z) (cnt : nat) : Z * nat * string :=
  match s with
  | EmptyString => (acc, cnt, s)
  | String c r =>
      match digit_of c with
      | Some d => read_digits r (10 * acc + d) (S cnt)
      | None => (acc, cnt, s)
      end
  end.

Definition read_sign (s : string) : bool * string :=
  match s with
  | String "-" r => (true, r)
  | String "+" r => (false, r)
  | _ => (false, s)
  end.

(** Tab, line feed, vertical tab, form feed, carriage return, space. *)
Definition is_blank (c : ascii) : bool :=
  let n := nat_of_ascii c in
  ((9 <=? n)%nat && (n <=? 13)%nat) || (n =? 32)%nat.

Fixpoint skip_blanks (s : string) : string :=
  match s with
  | EmptyString => s
  | String c r => if is_blank c then skip_blanks r else s
  end.

(** The exponent at the head of [s]: [e] or [E], an optional sign and at
    least one digit.  Anything else is no exponent, and counts as zero. *)
Definition read_exponent (s : string) : Z :=
  match s with
  | String c r =>
      if Ascii.eqb c "e" || Ascii.eqb c "E" then
        let '(neg, r1) := read_sign r in
        let '(v, n, _) := read_digits r1 0 0 in
        match n with
        | O => 0
        | _ => if neg then - v else v
        end
      else 0
  | EmptyString => 0
  end.

(** [m * 10 ^ k], in lowest terms. *)
Definition scale10 (m k : Z) : Q :=
  if 0 <=? k then inject_Z (m * 10 ^ k)
  else Qred (m # Z.to_pos (10 ^ (- k))).

(** Half the least positive double, [2 ^ -1075]: a tie between [0] and
    the least positive double goes to [0], the even one. *)
Definition underflow_bound : Q := 1 # (2 ^ 1075).

(** Half way from the largest double, [2 ^ 1024 - 2 ^ 971], to
    [2 ^ 1024]: a tie goes up, the largest double being odd. *)
Definition overflow_bound : Q := inject_Z (2 ^ 1024 - 2 ^ 970).

(** The number a decimal is read as. *)
Definition number_of_decimal (q : Q) : number :=
  if Qle_bool (Qabs q) underflow_bound then num_of_Z 0
  else if Qle_bool overflow_bound (Qabs q) then Inf (negb (Qle_bool 0 q))
  else Num q.

Definition parseFloat (s : string) : number :=
  let '(neg, s1) := read_sign (skip_blanks s) in
  if String.prefix "Infinity" s1 then Inf neg
  else
    let '(ip, n1, r1) := read_digits s1 0 0 in
    let signed (z : Z) := if neg then - z else z in
    match r1 with
    | String "." r2 =>
        let '(fp, n2, r3) := read_digits r2 ip 0 in
        match (n1 + n2)%nat with
        | O => NaN
        | _ =>
            number_of_decimal
              (scale10 (signed fp) (read_exponent r3 - Z.of_nat n2))
        end
    | _ =>
        match n1 with
        | O => NaN
        | _ => number_of_decimal (scale10 (signed ip) (read_exponent r1))
        end
    end.

(* ================================================================== *)
(** ** Data model ([types.ts]) *)

Inductive Category : Type :=
| HOUSING | TRANSPORTATION | FOOD | UTILITIES
| ENTERTAINMENT | SHOPPING | HEALTH | OTHER.

(** The string value of each member of the enum. *)
Definition category_value (c : Category) : string :=
  match c with
  | HOUSING => "Housing"
  | TRANSPORTATION => "Transportation"
  | FOOD => "Food & Dining"
  | UTILITIES => "Utilities"
  | ENTERTAINMENT => "Entertainment"
  | SHOPPING => "Shopping"
  | HEALTH => "Health"
  | OTHER => "Other"
  end.

Inductive Role : Type := Admin | Member.

Definition Role_eqb (a b : Role) : bool :=
  match a, b with
  | Admin, Admin | Member, Member => true
  | _, _ => false
  end.

Record User : Type := mkUser {
  u_id : string;
  u_name : string;
  u_email : string;
  u_password : option string;
  u_avatar : string;
  u_role : Role;
  u_themeColor : option string
}.

Record Workspace : Type := mkWorkspace {
  w_id : string;
  w_name : string;
  w_currency : string;
  w_budget : number;
  w_users : list User
}.

Record Expense : Type := mkExpense {
  e_id : string;
  e_amount : number;
  e_description : string;
  e_category : Category;
  e_date : string;
  e_userId : string;
  e_userName : string;
  e_userAvatar : string;
  e_workspaceId : string
}.

Inductive View : Type := dashboard | transactions | workspace | settings.

Record AppState : Type := mkAppState {
  workspaces : list Workspace;
  users : list User;
  currentWorkspaceId : string;
  expenses : list Expense;
  activeUserId : option string;
  activeView : View;
  masterPassword : option string
}.

(** Functional record updates, one per spread [{...x, field: v}] of the
    source. *)
Definition with_themeColor (u : User) (c : string) : User :=
  mkUser (u_id u) (u_name u) (u_email u) (u_password u) (u_avatar u)
         (u_role u) (Some c).

Definition with_profile (u : User) (name email avatar : string) : User :=
  mkUser (u_id u) name email (u_password u) avatar (u_role u)
         (u_themeColor u).

Definition with_w_users (w : Workspace) (us : list User) : Workspace :=
  mkWorkspace (w_id w) (w_name w) (w_currency w) (w_budget w) us.

Definition with_w_currency (w : Workspace) (c : string) : Workspace :=
  mkWorkspace (w_id w) (w_name w) c (w_budget w) (w_users w).

Definition with_w_budget (w : Workspace) (b : number) : Workspace :=
  mkWorkspace (w_id w) (w_name w) (w_currency w) b (w_users w).

Definition with_owner (e : Expense) (name avatar : string) : Expense :=
  mkExpense (e_id e) (e_amount e) (e_description e) (e_category e)
            (e_date e) (e_userId e) name avatar (e_workspaceId e).

Definition with_workspaces (s : AppState) (ws : list Workspace) : AppState :=
  mkAppState ws (users s) (currentWorkspaceId s) (expenses s)
             (activeUserId s) (activeView s) (masterPassword s).

Definition with_users (s : AppState) (us : list User) : AppState :=
  mkAppState (workspaces s) us (currentWorkspaceId s) (expenses s)
             (activeUserId s) (activeView s) (masterPassword s).

Definition with_expenses (s : AppState) (es : list Expense) : AppState :=
  mkAppState (workspaces s) (users s) (currentWorkspaceId s) es
             (activeUserId s) (activeView s) (masterPassword s).

Definition with_activeUserId (s : AppState) (a : option string) : AppState :=
  mkAppState (workspaces s) (users s) (currentWorkspaceId s) (expenses s)
             a (activeView s) (masterPassword s).

Definition with_activeView (s : AppState) (v : View) : AppState :=
  mkAppState (workspaces s) (users s) (currentWorkspaceId s) (expenses s)
             (activeUserId s) v (masterPassword s).

(** [x === y] between a string and a [string | null]. *)
Definition eqb_opt (x : string) (y : option string) : bool :=
  match y with
  | Some z => String.eqb x z
  | None => false
  end.

(** [a === b] between two optional strings (a stored password, which may
    be missing, against a typed one). *)
Definition opt_eqb (a b : option string) : bool :=
  match a, b with
  | Some x, Some y => String.eqb x y
  | None, None => true
  | _, _ => false
  end.

(* ================================================================== *)
(** ** Defaults and the initial state *)

Definition DEFAULT_THEME : string := "#2563eb".

Definition DEFAULT_USERS : list User :=
  [ mkUser "u1" "System Admin" "admin@smartspend.com" (Some "admin")
           "https://picsum.photos/seed/admin/120" Admin (Some "#2563eb") ].

Definition DEFAULT_WORKSPACE : Workspace :=
  mkWorkspace "w1" "Main Workspace" "$" (num_of_Z 5000) DEFAULT_USERS.

(** The state built when the store holds no saved snapshot. *)
Definition initialState : AppState :=
  mkAppState [DEFAULT_WORKSPACE] DEFAULT_USERS "w1" [] None dashboard
             (Some "admin").

(* ================================================================== *)
(** ** Derived values of the component *)

(** [state.workspaces.find(w => w.id === state.currentWorkspaceId) ||
    state.workspaces[0]]; [None] is [undefined]. *)
Definition currentWorkspace (s : AppState) : option Workspace :=
  match find (fun w => String.eqb (w_id w) (currentWorkspaceId s))
             (workspaces s) with
  | Some w => Some w
  | None => hd_error (workspaces s)
  end.

Definition activeUser (s : AppState) : option User :=
  find (fun u => eqb_opt (u_id u) (activeUserId s)) (users s).

Definition isAdmin (s : AppState) : bool :=
  match activeUser s with
  | Some u => Role_eqb (u_role u) Admin
  | None => false
  end.

Definition workspaceExpensesOf (cw : Workspace) (s : AppState) : list Expense :=
  filter (fun e => String.eqb (e_workspaceId e) (w_id cw)) (expenses s).

Definition workspaceExpenses (s : AppState) : option (list Expense) :=
  option_map (fun cw => workspaceExpensesOf cw s) (currentWorkspace s).

Definition sumAmounts (es : list Expense) : number :=
  fold_left (fun acc curr => num_add acc (e_amount curr)) es (num_of_Z 0).

Definition totalSpent (s : AppState) : option number :=
  option_map sumAmounts (workspaceExpenses s).

Definition budgetRemaining (s : AppState) : option number :=
  match currentWorkspace s with
  | Some cw =>
      Some (num_sub (w_budget cw) (sumAmounts (workspaceExpensesOf cw s)))
  | None => None
  end.

(** [(totalSpent / currentWorkspace.budget) * 100]. *)
Definition spendingPercentage (s : AppState) : option number :=
  match currentWorkspace s with
  | Some cw =>
      Some (num_mul (num_div (sumAmounts (workspaceExpensesOf cw s))
                             (w_budget cw))
                    (num_of_Z 100))
  | None => None
  end.

(** *** The transaction table: filter, then sort *)

Inductive Direction : Type := asc | desc.

(** [keyof Expense]. *)
Inductive ExpenseKey : Type :=
| k_id | k_amount | k_description | k_category | k_date
| k_userId | k_userName | k_userAvatar | k_workspaceId.

Inductive value : Type :=
| VNum (n : number)
| VStr (t : string).

(** [a[sortConfig.key]]. *)
Definition field (k : ExpenseKey) (e : Expense) : value :=
  match k with
  | k_id => VStr (e_id e)
  | k_amount => VNum (e_amount e)
  | k_description => VStr (e_description e)
  | k_category => VStr (category_value (e_category e))
  | k_date => VStr (e_date e)
  | k_userId => VStr (e_userId e)
  | k_userName => VStr (e_userName e)
  | k_userAvatar => VStr (e_userAvatar e)
  | k_workspaceId => VStr (e_workspaceId e)
  end.

(** [a < b] between two field values: numeric on numbers, by code units on
    strings.  The two sides of one comparison always come from the same
    field, so the mixed cases do not arise. *)
Definition value_ltb (a b : value) : bool :=
  match a, b with
  | VNum x, VNum y => num_ltb x y
  | VStr x, VStr y => String.ltb x y
  | _, _ => false
  end.

(** [a === b] between two field values. *)
Definition value_eqb (a b : value) : bool :=
  match a, b with
  | VNum x, VNum y => num_eqb x y
  | VStr x, VStr y => String.eqb x y
  | _, _ => false
  end.

Record SortConfig : Type := mkSortConfig {
  key : ExpenseKey;
  direction : Direction
}.

(** The comparator handed to [result.sort]: negative, zero or positive.
    Every field of an [Expense] is present, so the source's early [return 0]
    on an [undefined] value has no case here. *)
Definition compareExpenses (cfg : SortConfig) (a b : Expense) : Z :=
  let aValue := field (key cfg) a in
  let bValue := field (key cfg) b in
  if value_ltb aValue bValue then
    match direction cfg with asc => -1 | desc => 1 end
  else if value_ltb bValue aValue then
    match direction cfg with asc => 1 | desc => -1 end
  else 0.

Section ArraySort.
Context {A : Type}.
Variable cmp : A -> A -> Z.

(** [Array.prototype.sort(cmp)] is a stable sort: an element moves to the
    right only past elements it compares strictly greater than.  It is
    modelled by insertion from the right end of the array.  With a
    consistent comparator every stable sort returns the same array, which
    is this one.  With an inconsistent comparator, which the table's is
    when it compares amounts and one of them is [NaN], the order is left to
    the engine and this function does not stand for it: what is stated of
    a sort by amount is stated of amounts that are not [NaN]. *)
Fixpoint sort_insert (x : A) (l : list A) : list A :=
  match l with
  | [] => [x]
  | y :: r => if 0 <? cmp x y then y :: sort_insert x r else x :: y :: r
  end.

Definition array_sort (l : list A) : list A :=
  fold_right sort_insert [] l.
End ArraySort.

(** The sorting step of [filteredExpenses]. *)
Definition sortBy (es : list Expense) (k : ExpenseKey) (d : Direction)
  : list Expense :=
  array_sort (compareExpenses (mkSortConfig k d)) es.

(** [categoryFilter] is ['All'] or the value of a category. *)
Definition matchesCategory (categoryFilter : string) (exp : Expense) : bool :=
  String.eqb categoryFilter "All" ||
  String.eqb (category_value (e_category exp)) categoryFilter.

Definition matchesSearch (searchTerm : string) (exp : Expense) : bool :=
  includes (toLowerCase (e_description exp)) (toLowerCase searchTerm) ||
  includes (toLowerCase (e_userName exp)) (toLowerCase searchTerm).

Definition filteredExpenses (s : AppState) (searchTerm categoryFilter : string)
  (sortConfig : SortConfig) : option (list Expense) :=
  option_map
    (fun ws =>
       let result :=
         filter (fun exp => matchesSearch searchTerm exp &&
                            matchesCategory categoryFilter exp) ws in
       sortBy result (key sortConfig) (direction sortConfig))
    (workspaceExpenses s).

(* ================================================================== *)
(** ** Handlers *)

(** What the user can observe of one handler run, besides the new state. *)
Inductive Outcome : Type :=
| Done                       (** the state update was applied *)
| Ignored                    (** early [return], nothing shown *)
| Cancelled                  (** the [confirm] dialog was declined *)
| AuthError (msg : string)   (** [setAuthError(msg)] *)
| Alert (msg : string)       (** [alert(msg)] *)
| TypeError.                 (** a property read on [undefined] *)

(** The rejections the specification names, as the source words them. *)
Definition DuplicateEmail : Outcome :=
  AuthError "This email is already registered.".
Definition PasswordMismatch : Outcome :=
  AuthError "Passwords do not match.".
Definition InvalidCredentials : Outcome :=
  AuthError "Incorrect password.".
Definition SelfDeletionForbidden : Outcome :=
  Alert "Safety Lock: You cannot delete your own active profile.".
Definition LastMemberProtection : Outcome :=
  Alert "Action Blocked: A workspace requires at least one participating member.".
Definition PermissionDenied : Outcome :=
  Alert "Permission Error: You are not a registered member of this workspace.".

Definition handleUpdateTheme (s : AppState) (color : string)
  : AppState * Outcome :=
  match activeUserId s with
  | None | Some EmptyString => (s, Ignored)
  | Some _ =>
      (with_users s
         (map (fun u => if eqb_opt (u_id u) (activeUserId s)
                        then with_themeColor u color else u)
              (users s)),
       Done)
  end.

(** *** Permission helper *)

(** The [expense] argument is received and never read.  [None] stands for
    the [TypeError] of reading [users] on an undefined workspace. *)
Definition canModifyTransaction (s : AppState) (expense : Expense)
  : option bool :=
  match activeUser s with
  | None => Some false
  | Some au =>
      match currentWorkspace s with
      | Some cw =>
          Some (existsb (fun u => String.eqb (u_id u) (u_id au)) (w_users cw))
      | None => None
      end
  end.

(** *** Auth handlers *)

Definition emailTaken (s : AppState) (email : string) : bool :=
  existsb (fun u => String.eqb (toLowerCase (u_email u)) (toLowerCase email))
          (users s).

(** The id given to a user created when the clock reads [now]. *)
Definition newUserId (now : Z) : string := ("u-" ++ Z_to_string now)%string.

Definition newUser (now : Z) (name email password : string) : User :=
  mkUser (newUserId now) name email (Some password)
         ("https://picsum.photos/seed/" ++ email ++ "/120")%string
         Member (Some DEFAULT_THEME).

(** [prev.workspaces.map((ws, i) => i === 0 ? {...ws, users: [...ws.users,
    newUser]} : ws)]. *)
Definition addToFirst (u : User) (ws : list Workspace) : list Workspace :=
  match ws with
  | [] => []
  | w :: r => with_w_users w (w_users w ++ [u]) :: r
  end.

Definition handleSignUp (s : AppState) (now : Z)
  (name email password confirmPassword : string) : AppState * Outcome :=
  if emailTaken s email then (s, DuplicateEmail)
  else if negb (String.eqb password confirmPassword) then (s, PasswordMismatch)
  else
    let nu := newUser now name email password in
    (mkAppState (addToFirst nu (workspaces s)) (users s ++ [nu])
                (currentWorkspaceId s) (expenses s) (Some (u_id nu))
                (activeView s) (masterPassword s),
     Done).

(** [loginStep] carries the id of the profile picked on the sign-in
    screen. *)
Definition handleSignIn (s : AppState) (loginStep : option string)
  (password : string) : AppState * Outcome :=
  match loginStep with
  | None => (s, Ignored)
  | Some userId =>
      match find (fun u => String.eqb (u_id u) userId) (users s) with
      | Some user =>
          if opt_eqb (u_password user) (Some password)
          then (with_activeUserId s (Some (u_id user)), Done)
          else (s, InvalidCredentials)
      | None => (s, InvalidCredentials)
      end
  end.

Definition handleLogout (s : AppState) : AppState * Outcome :=
  (with_activeUserId s None, Done).

(** *** Profile and directory *)

(** The closing [alert("Profile Updated Successfully")] is a notice, not a
    rejection: the outcome is [Done]. *)
Definition handleSaveSelfProfile (s : AppState) (name email avatar : string)
  : AppState * Outcome :=
  match activeUser s with
  | None => (s, Ignored)
  | Some au =>
      let updated := with_profile au name email avatar in
      (mkAppState
         (map (fun ws =>
                 with_w_users ws
                   (map (fun u => if String.eqb (u_id u) (u_id au)
                                  then updated else u)
                        (w_users ws)))
              (workspaces s))
         (map (fun u => if String.eqb (u_id u) (u_id au) then updated else u)
              (users s))
         (currentWorkspaceId s)
         (map (fun exp => if String.eqb (e_userId exp) (u_id au)
                          then with_owner exp (u_name updated)
                                          (u_avatar updated)
                          else exp)
              (expenses s))
         (activeUserId s) (activeView s) (masterPassword s),
       Done)
  end.

Definition handleDeleteUser (s : AppState) (userId : string) (confirmed : bool)
  : AppState * Outcome :=
  if negb (isAdmin s) then (s, Ignored)
  else if eqb_opt userId (activeUserId s) then (s, SelfDeletionForbidden)
  else if confirmed then
    (mkAppState
       (map (fun ws =>
               with_w_users ws
                 (filter (fun u => negb (String.eqb (u_id u) userId))
                         (w_users ws)))
            (workspaces s))
       (filter (fun u => negb (String.eqb (u_id u) userId)) (users s))
       (currentWorkspaceId s) (expenses s) (activeUserId s) (activeView s)
       (masterPassword s),
     Done)
  else (s, Cancelled).

Definition toggleWorkspaceMember (s : AppState) (userId : string)
  : AppState * Outcome :=
  if negb (isAdmin s) then (s, Ignored)
  else
    match find (fun u => String.eqb (u_id u) userId) (users s) with
    | None => (s, Ignored)
    | Some user =>
        match find (fun w => String.eqb (w_id w) (currentWorkspaceId s))
                   (workspaces s) with
        | None => (s, Ignored)
        | Some ws =>
            let isMember :=
              existsb (fun u => String.eqb (u_id u) userId) (w_users ws) in
            let updatedUsers :=
              if isMember
              then filter (fun u => negb (String.eqb (u_id u) userId))
                          (w_users ws)
              else (w_users ws ++ [user]) in
            if (length updatedUsers =? 0)%nat then (s, LastMemberProtection)
            else
              (with_workspaces s
                 (map (fun w => if String.eqb (w_id w) (currentWorkspaceId s)
                                then with_w_users w updatedUsers else w)
                      (workspaces s)),
               Done)
        end
    end.

(** *** Expenses *)

(** [description] and [amount] are the texts of the two form fields; [now]
    is the clock reading that becomes the id and [today] the date part of
    its ISO rendering. *)
Definition handleAddExpense (s : AppState) (now : Z) (today : string)
  (description amount : string) (category : Category) : AppState * Outcome :=
  if negb (truthy description) || negb (truthy amount) then (s, Ignored)
  else
    match activeUser s with
    | None => (s, Ignored)
    | Some au =>
        match currentWorkspace s with
        | None => (s, TypeError)
        | Some cw =>
            let expense :=
              mkExpense (Z_to_string now) (parseFloat amount) description
                        category today (u_id au) (u_name au) (u_avatar au)
                        (w_id cw) in
            (with_expenses s (expense :: expenses s), Done)
        end
    end.

Definition deleteExpense (s : AppState) (expense : Expense) (confirmed : bool)
  : AppState * Outcome :=
  match canModifyTransaction s expense with
  | None => (s, TypeError)
  | Some false => (s, PermissionDenied)
  | Some true =>
      if confirmed then
        (with_expenses s
           (filter (fun e => negb (String.eqb (e_id e) (e_id expense)))
                   (expenses s)),
         Done)
      else (s, Cancelled)
  end.

(** [selectedExpenseIds.includes(id)]. *)
Definition ids_include (ids : list string) (id : string) : bool :=
  existsb (String.eqb id) ids.

Definition deleteSelectedExpenses (s : AppState)
  (selectedExpenseIds : list string) (confirmed : bool) : AppState * Outcome :=
  if confirmed then
    (with_expenses s
       (filter (fun e => negb (ids_include selectedExpenseIds (e_id e)))
               (expenses s)),
     Done)
  else (s, Cancelled).

(** *** Governance inputs of the settings view

    The two inputs are rendered under [isAdmin &&] only; their [onChange]
    handlers hold no check of their own. *)

Definition setCurrency (s : AppState) (text : string) : AppState * Outcome :=
  if negb (isAdmin s) then (s, Ignored)
  else
    match currentWorkspace s with
    | None => (s, TypeError)
    | Some cw =>
        (with_workspaces s
           (map (fun w => if String.eqb (w_id w) (w_id cw)
                          then with_w_currency w text else w)
                (workspaces s)),
         Done)
    end.

Definition setBudget (s : AppState) (text : string) : AppState * Outcome :=
  if negb (isAdmin s) then (s, Ignored)
  else
    match currentWorkspace s with
    | None => (s, TypeError)
    | Some cw =>
        (with_workspaces s
           (map (fun w => if String.eqb (w_id w) (w_id cw)
                          then with_w_budget w (parseFloat text) else w)
                (workspaces s)),
         Done)
    end.

Definition setActiveView (s : AppState) (v : View) : AppState * Outcome :=
  (with_activeView s v, Done).

(* ================================================================== *)
(** ** Runs of the component *)

Inductive Action : Type :=
| SignUp (now : Z) (name email password confirmPassword : string)
| SignIn (loginStep : option string) (password : string)
| Logout
| UpdateTheme (color : string)
| SaveSelfProfile (name email avatar : string)
| DeleteUser (userId : string) (confirmed : bool)
| ToggleWorkspaceMember (userId : string)
| AddExpense (now : Z) (today description amount : string) (category : Category)
| DeleteExpense (expense : Expense) (confirmed : bool)
| DeleteSelectedExpenses (selectedExpenseIds : list string) (confirmed : bool)
| SetCurrency (text : string)
| SetBudget (text : string)
| SetActiveView (v : View).

Definition handle (s : AppState) (a : Action) : AppState * Outcome :=
  match a with
  | SignUp now n e p c => handleSignUp s now n e p c
  | SignIn ls p => handleSignIn s ls p
  | Logout => handleLogout s
  | UpdateTheme c => handleUpdateTheme s c
  | SaveSelfProfile n e a => handleSaveSelfProfile s n e a
  | DeleteUser u c => handleDeleteUser s u c
  | ToggleWorkspaceMember u => toggleWorkspaceMember s u
  | AddExpense now today d a c => handleAddExpense s now today d a c
  | DeleteExpense e c => deleteExpense s e c
  | DeleteSelectedExpenses ids c => deleteSelectedExpenses s ids c
  | SetCurrency t => setCurrency s t
  | SetBudget t => setBudget s t
  | SetActiveView v => setActiveView s v
  end.

Definition is_some {A : Type} (o : option A) : bool :=
  match o with Some _ => true | None => false end.

(** Which events the rendered page can deliver: [if (!activeUser) return
    renderAuth()] shows the two auth forms and nothing else; with an active
    user the application is shown instead, and it cannot render at all
    without a current workspace. *)
Definition offered (s : AppState) (a : Action) : bool :=
  match a with
  | SignUp _ _ _ _ _ | SignIn _ _ => negb (is_some (activeUser s))
  | _ => is_some (activeUser s) && is_some (currentWorkspace s)
  end.

(** The states the component can be in, starting from the default one. *)
Inductive reachable : AppState -> Prop :=
| reach_init : reachable initialState
| reach_step s a :
    reachable s -> offered s a = true -> reachable (fst (handle s a)).

(** Running a script of events from a state, stopping at an event that the
    page does not offer. *)
Fixpoint run (s : AppState) (script : list Action) : option AppState :=
  match script with
  | [] => Some s
  | a :: r => if offered s a then run (fst (handle s a)) r else None
  end.

(* ================================================================== *)
(** ** The rest of the component *)

(** *** Row selection and column headers of the transaction table *)

(** [prev.includes(id) ? prev.filter(eid => eid !== id) : [...prev, id]]. *)
Definition toggleExpenseSelection (prev : list string) (id : string)
  : list string :=
  if ids_include prev id
  then filter (fun eid => negb (String.eqb eid id)) prev
  else prev ++ [id].

(** The header checkbox; [filtered] is the list the table shows. *)
Definition toggleAllExpenses (selectedExpenseIds : list string)
  (filtered : list Expense) : list string :=
  if (length selectedExpenseIds =? length filtered)%nat then []
  else map e_id filtered.

Definition ExpenseKey_eqb (a b : ExpenseKey) : bool :=
  match a, b with
  | k_id, k_id | k_amount, k_amount | k_description, k_description
  | k_category, k_category | k_date, k_date | k_userId, k_userId
  | k_userName, k_userName | k_userAvatar, k_userAvatar
  | k_workspaceId, k_workspaceId => true
  | _, _ => false
  end.

Definition Direction_eqb (a b : Direction) : bool :=
  match a, b with
  | asc, asc | desc, desc => true
  | _, _ => false
  end.

Definition requestSort (sortConfig : SortConfig) (k : ExpenseKey)
  : SortConfig :=
  let direction' :=
    if ExpenseKey_eqb (key sortConfig) k &&
       Direction_eqb (direction sortConfig) asc
    then desc else asc in
  mkSortConfig k direction'.

(** *** The category chart *)

(** Falsy numbers: [0] and [NaN]. *)
Definition num_falsy (n : number) : bool :=
  match n with
  | NaN => true
  | Inf _ => false
  | Num q => Qeq_bool q 0
  end.

(** A [Record<string, number>] with its keys in insertion order, which is
    the order [Object.entries] lists them in. *)
Definition NumRecord : Type := list (string * number).

Fixpoint record_get (m : NumRecord) (k : string) : option number :=
  match m with
  | [] => None
  | (k', v) :: r => if String.eqb k' k then Some v else record_get r k
  end.

Fixpoint record_set (m : NumRecord) (k : string) (v : number) : NumRecord :=
  match m with
  | [] => [(k, v)]
  | (k', v') :: r =>
      if String.eqb k' k then (k', v) :: r else (k', v') :: record_set r k v
  end.

(** [map[k] || 0]. *)
Definition orZero (v : option number) : number :=
  match v with
  | None => num_of_Z 0
  | Some n => if num_falsy n then num_of_Z 0 else n
  end.

(** The [forEach] that fills the record. *)
Definition sumByCategory (es : list Expense) : NumRecord :=
  fold_left
    (fun m exp =>
       record_set m (category_value (e_category exp))
         (num_add (orZero (record_get m (category_value (e_category exp))))
                  (e_amount exp)))
    es [].

(** [(a, b) => b.value - a.value], by its sign; a [NaN] difference counts
    as zero. *)
Definition compareChart (a b : string * number) : Z :=
  let d := num_sub (snd b) (snd a) in
  if num_ltb (num_of_Z 0) d then 1
  else if num_ltb d (num_of_Z 0) then -1
  else 0.

Definition chartDataOf (es : list Expense) : NumRecord :=
  array_sort compareChart (sumByCategory es).

Definition chartData (s : AppState) : option NumRecord :=
  option_map chartDataOf (workspaceExpenses s).

(** *** Revealing a stored password *)

(** What [handleRevealPassword] shows; it never touches the state. *)
Inductive Reveal : Type :=
| AccessGranted (name : string) (password : option string)
| UserNotFound
| AccessDenied
| NothingShown.

(** [input] is the answer to the [prompt]: [None] when it was dismissed.
    A missing master password is [undefined], which no answer equals. *)
Definition handleRevealPassword (s : AppState) (userId : string)
  (input : option string) : Reveal :=
  match input with
  | None => NothingShown
  | Some typed =>
      if eqb_opt typed (masterPassword s) then
        match find (fun u => String.eqb (u_id u) userId) (users s) with
        | Some user => AccessGranted (u_name user) (u_password user)
        | None => UserNotFound
        end
      else AccessDenied
  end.

(* ================================================================== *)
(** ** Predicates used in the statements *)

(** All the amounts are numbers and no two of them are [===]. *)
Definition distinct_amounts (es : list Expense) : Prop :=
  Forall (fun e => e_amount e <> NaN) es /\
  ForallOrdPairs (fun a b => num_eqb (e_amount a) (e_amount b) = false) es.

Definition amount_ltb (a b : Expense) : bool :=
  num_ltb (e_amount a) (e_amount b).

(** What one category has spent: its amounts added in the order of the
    ledger, as [totalSpent] adds all of them. *)
Definition categorySum (name : string) (es : list Expense) : number :=
  sumAmounts
    (filter (fun e => String.eqb (category_value (e_category e)) name) es).

(** The active user is on the member list of the current workspace. *)
Definition memberOfCurrentWorkspace (s : AppState) : Prop :=
  exists au cw,
    activeUser s = Some au /\ currentWorkspace s = Some cw /\
    exists u, In u (w_users cw) /\ u_id u = u_id au.

(** What a workspace looks like once [userId] is gone from it: the same
    workspace, with the member list restricted to the other ids. *)
Definition stripped (userId : string) (w w' : Workspace) : Prop :=
  w_id w' = w_id w /\ w_name w' = w_name w /\
  w_currency w' = w_currency w /\ w_budget w' = w_budget w /\
  forall u, In u (w_users w') <-> In u (w_users w) /\ u_id u <> userId.

Definition nonEmptyWorkspaces (s : AppState) : Prop :=
  Forall (fun w => w_users w <> []) (workspaces s).

(** An expense after the owner [uid] took a new name and avatar: the two
    copied fields follow when the expense is the owner's, and nothing
    moves otherwise. *)
Definition resynced (uid name avatar : string) (e e' : Expense) : Prop :=
  (e_userId e = uid ->
   e_userName e' = name /\ e_userAvatar e' = avatar /\
   e_id e' = e_id e /\ e_amount e' = e_amount e /\
   e_description e' = e_description e /\ e_category e' = e_category e /\
   e_date e' = e_date e /\ e_userId e' = e_userId e /\
   e_workspaceId e' = e_workspaceId e) /\
  (e_userId e <> uid -> e' = e).

(** A member list after the record of [uid] was replaced by [updated]. *)
Definition rewritten (uid : string) (updated : User) (u u' : User) : Prop :=
  (u_id u = uid -> u' = updated) /\ (u_id u <> uid -> u' = u).

Definition positiveBudgets (s : AppState) : Prop :=
  Forall (fun w => num_positive (w_budget w) = true) (workspaces s).

(** An event that does not type a budget which is not positive. *)
Definition positiveEntry (a : Action) : Prop :=
  match a with
  | SetBudget text => num_positive (parseFloat text) = true
  | _ => True
  end.

(** The other case of an ASCII letter; any other character is itself. *)
Definition swap_case (c : ascii) : ascii :=
  let n := nat_of_ascii c in
  if (65 <=? n)%nat && (n <=? 90)%nat then ascii_of_nat (n + 32)
  else if (97 <=? n)%nat && (n <=? 122)%nat then ascii_of_nat (n - 32)
  else c.

(** Two texts that differ in the case of their letters at most. *)
Inductive sameUpToCase : string -> string -> Prop :=
| same_empty : sameUpToCase "" ""
| same_char (c d : ascii) (s t : string) :
    d = c \/ d = swap_case c -> sameUpToCase s t ->
    sameUpToCase (String c s) (String d t).

(** *** Well-formedness of a state *)

(** One workspace, the seeded one, which is also the current one. *)
Definition singleWorkspace (s : AppState) : Prop :=
  map (fun w => (w_id w, w_name w)) (workspaces s)
  = [("w1", "Main Workspace")] /\
  currentWorkspaceId s = "w1".

(** Every member of every workspace carries the id of a user of the
    directory. *)
Definition membersKnown (s : AppState) : Prop :=
  forall w m, In w (workspaces s) -> In m (w_users w) ->
              exists u, In u (users s) /\ u_id u = u_id m.

(** The active id, when there is one, is the id of a user of the
    directory. *)
Definition activeKnown (s : AppState) : Prop :=
  forall uid, activeUserId s = Some uid ->
              exists u, In u (users s) /\ u_id u = uid.

(** The seeded administrator is in the directory, and the administrators
    are the records with that id. *)
Definition rolesFixed (s : AppState) : Prop :=
  (exists u, In u (users s) /\ u_id u = "u1") /\
  forall u, In u (users s) -> (u_role u = Admin <-> u_id u = "u1").

(** Every expense is filed under the id of a workspace of the state. *)
Definition expensesFiled (s : AppState) : Prop :=
  forall e, In e (expenses s) ->
            exists w, In w (workspaces s) /\ w_id w = e_workspaceId e.

(** The events that need a signed-in user: their handler returns at once
    without one or, for the two governance inputs, the input is rendered
    for an administrator only.  The bulk delete and the navigation buttons
    are not among them: nothing but the sign-in page hides them. *)
Definition needsSession (a : Action) : bool :=
  match a with
  | UpdateTheme _ | SaveSelfProfile _ _ _ | DeleteUser _ _
  | ToggleWorkspaceMember _ | AddExpense _ _ _ _ _ | DeleteExpense _ _
  | SetCurrency _ | SetBudget _ => true
  | _ => false
  end.

(** What an administrator governs: per workspace its currency, its budget
    and the ids on its roster, and the ids of the directory. *)
Definition governed (s : AppState)
  : list (string * number * list string) * list string :=
  (map (fun w => (w_currency w, w_budget w, map u_id (w_users w)))
       (workspaces s),
   map u_id (users s)).

(** Two numbers that print the same: the same special value, or equal
    rationals. *)
Definition num_same (a b : number) : Prop :=
  match a, b with
  | NaN, NaN => True
  | Inf x, Inf y => x = y
  | Num x, Num y => (x == y)%Q
  | _, _ => False
  end.

(** The owner fields copied into the expenses agree with the directory:
    whenever the directory has a user with the owner's id, the expense
    carries the name and avatar of the first such user. *)
Definition ownersInSync (s : AppState) : Prop :=
  forall e u,
    In e (expenses s) ->
    find (fun u => String.eqb (u_id u) (e_userId e)) (users s) = Some u ->
    e_userName e = u_name u /\ e_userAvatar e = u_avatar u.

(** A sign-up whose id is not the owner id of an expense of the ledger;
    any other event. *)
Definition freshSignUp (s : AppState) (a : Action) : Prop :=
  match a with
  | SignUp now _ _ _ _ =>
      Forall (fun e => e_userId e <> newUserId now) (expenses s)
  | _ => True
  end.

(** A script in which every sign-up is fresh at the time it happens. *)
Fixpoint freshScript (s : AppState) (script : list Action) : Prop :=
  match script with
  | [] => True
  | a :: r => freshSignUp s a /\ freshScript (fst (handle s a)) r
  end.

(* ================================================================== *)
(** ** Sample states and runs *)

(** A signed-in member who has been taken off the workspace: Bob signs up,
    records a lunch, the administrator removes him from the workspace, and
    Bob signs in again. *)
Definition lockedOutScript : list Action :=
  [ SignUp 5 "Bob" "bob@x.io" "pw" "pw";
    AddExpense 7 "2024-01-01" "Lunch" "12.5" FOOD;
    Logout;
    SignIn (Some "u1") "admin";
    ToggleWorkspaceMember "u-5";
    Logout;
    SignIn (Some "u-5") "pw" ].

Definition lockedOut : AppState :=
  Eval vm_compute in
    match run initialState lockedOutScript with
    | Some s => s
    | None => initialState
    end.

Definition lunch : Expense :=
  mkExpense "7" (Num (25 # 2)) "Lunch" FOOD "2024-01-01" "u-5" "Bob"
            "https://picsum.photos/seed/bob@x.io/120" "w1".

(** An expense filed under another workspace than the current one. *)
Definition elsewhere : Expense :=
  mkExpense "9" (Num 3) "Taxi" TRANSPORTATION "2024-02-02" "u1"
            "System Admin" "https://picsum.photos/seed/admin/120" "w2".

Definition crossState : AppState :=
  mkAppState [DEFAULT_WORKSPACE] DEFAULT_USERS "w1" [elsewhere; lunch]
             (Some "u1") transactions (Some "admin").

(** Bob has just signed up: he is the active user, with the [Member]
    role. *)
Definition memberState : AppState :=
  Eval vm_compute in
    fst (handle initialState (SignUp 5 "Bob" "bob@x.io" "pw" "pw")).

(** Bob is the only member left: the administrator, signed in, has taken
    himself off the workspace. *)
Definition soleMemberScript : list Action :=
  [ SignUp 5 "Bob" "bob@x.io" "pw" "pw";
    Logout;
    SignIn (Some "u1") "admin";
    ToggleWorkspaceMember "u1" ].

Definition soleMember : AppState :=
  Eval vm_compute in
    match run initialState soleMemberScript with
    | Some s => s
    | None => initialState
    end.

(** Bob, as the directory holds him once signed up. *)
Definition bob : User := newUser 5 "Bob" "bob@x.io" "pw".

(** The administrator, signed in on the default state. *)
Definition adminSignedIn : AppState :=
  Eval vm_compute in fst (handle initialState (SignIn (Some "u1") "admin")).

(** The administrator types a zero budget. *)
Definition zeroBudget : AppState :=
  Eval vm_compute in fst (handle adminSignedIn (SetBudget "0")).

(** Bob signed up and logged out; Eve then signs up while the clock reads
    what it read for Bob. *)
Definition bobLoggedOut : AppState :=
  Eval vm_compute in
    match run initialState [SignUp 5 "Bob" "bob@x.io" "pw" "pw"; Logout] with
    | Some s => s
    | None => initialState
    end.

Definition eve : User := newUser 5 "Eve" "eve@x.io" "secret".

(** Three expenses of 3, 1 and 2. *)
Definition threeExpenses : list Expense :=
  [ mkExpense "a" (Num 3) "Rent" HOUSING "2024-01-03" "u1" "System Admin"
              "https://picsum.photos/seed/admin/120" "w1";
    mkExpense "b" (Num 1) "Bus" TRANSPORTATION "2024-01-01" "u1"
              "System Admin" "https://picsum.photos/seed/admin/120" "w1";
    mkExpense "c" (Num 2) "Soup" FOOD "2024-01-02" "u1" "System Admin"
              "https://picsum.photos/seed/admin/120" "w1" ].

(** Two expenses of 5 around one of 2. *)
Definition tiedExpenses : list Expense :=
  [ mkExpense "t1" (Num 5) "Cinema" ENTERTAINMENT "2024-03-01" "u1"
              "System Admin" "https://picsum.photos/seed/admin/120" "w1";
    mkExpense "t2" (Num 2) "Tea" FOOD "2024-03-02" "u1" "System Admin"
              "https://picsum.photos/seed/admin/120" "w1";
    mkExpense "t3" (Num 5) "Book" SHOPPING "2024-03-03" "u1" "System Admin"
              "https://picsum.photos/seed/admin/120" "w1" ].

(** A workspace with a limit of 1000 and three expenses. *)
Definition budgetScenario : AppState :=
  mkAppState
    [ mkWorkspace "w1" "Main Workspace" "$" (num_of_Z 1000) DEFAULT_USERS ]
    DEFAULT_USERS "w1"
    [ mkExpense "1" (Num 200) "Groceries" FOOD "2024-01-01" "u1"
                "System Admin" "https://picsum.photos/seed/admin/120" "w1";
      mkExpense "2" (Num 300) "Dinner" FOOD "2024-01-02" "u1"
                "System Admin" "https://picsum.photos/seed/admin/120" "w1";
      mkExpense "3" (Num 150) "Train" TRANSPORTATION "2024-01-03" "u1"
                "System Admin" "https://picsum.photos/seed/admin/120" "w1" ]
    (Some "u1") dashboard (Some "admin").

(** A second workspace, and a renamed copy of a workspace. *)
Definition sideWorkspace : Workspace :=
  mkWorkspace "w2" "Side Workspace" "$" (num_of_Z 100) [].

Definition with_w_name (w : Workspace) (n : string) : Workspace :=
  mkWorkspace (w_id w) n (w_currency w) (w_budget w) (w_users w).

(** The seeded administrator's record. *)
Definition systemAdmin : User :=
  mkUser "u1" "System Admin" "admin@smartspend.com" (Some "admin")
         "https://picsum.photos/seed/admin/120" Admin (Some "#2563eb").

(** The administrator is signed in and has taken Bob off the workspace. *)
Definition bobRevokedScript : list Action :=
  [ SignUp 5 "Bob" "bob@x.io" "pw" "pw";
    Logout;
    SignIn (Some "u1") "admin";
    ToggleWorkspaceMember "u-5" ].

Definition bobRevoked : AppState :=
  Eval vm_compute in
    match run initialState bobRevokedScript with
    | Some s => s
    | None => initialState
    end.

(* ================================================================== *)
(** * Properties *)

(** ** The sort of the transaction table *)

Section SortFacts.
Context {A : Type}.

Section AnyComparator.
Variable cmp : A -> A -> Z.

Lemma sort_insert_Forall (Q : A -> Prop) x l :
  Q x -> Forall Q l -> Forall Q (sort_insert cmp x l).
Proof.
  intros Hx Hl. induction Hl as [|y r Hy Hr IH]; simpl.
  - constructor; [assumption | constructor].
  - destruct (0 <? cmp x y); repeat constructor; assumption.
Qed.

Lemma array_sort_Forall (Q : A -> Prop) l :
  Forall Q l -> Forall Q (array_sort cmp l).
Proof.
  induction 1 as [|x r Hx Hr IH]; simpl.
  - constructor.
  - now apply sort_insert_Forall.
Qed.

(** Inserting never moves [x] past an element of its own class. *)
Lemma sort_insert_filter (P : A -> bool) x l :
  (forall a b, P a = true -> P b = true -> (0 <? cmp a b) = false) ->
  filter P (sort_insert cmp x l) = filter P (x :: l).
Proof.
  intros HP. induction l as [|y r IH]; [reflexivity|].
  cbn [sort_insert]. destruct (0 <? cmp x y) eqn:Hxy; [|reflexivity].
  cbn [filter] in *. rewrite IH.
  destruct (P x) eqn:Px, (P y) eqn:Py; try reflexivity.
  rewrite (HP x y Px Py) in Hxy. discriminate.
Qed.

Lemma array_sort_filter (P : A -> bool) l :
  (forall a b, P a = true -> P b = true -> (0 <? cmp a b) = false) ->
  filter P (array_sort cmp l) = filter P l.
Proof.
  intros HP. induction l as [|x r IH]; [reflexivity|].
  cbn [array_sort fold_right]. fold (array_sort cmp r).
  rewrite (sort_insert_filter P x _ HP). cbn [filter]. now rewrite IH.
Qed.

Lemma sort_insert_stops x y l :
  (0 <? cmp x y) = false ->
  sort_insert cmp x (l ++ [y]) = sort_insert cmp x l ++ [y].
Proof.
  intros Hxy. induction l as [|z r IH]; simpl.
  - now rewrite Hxy.
  - destruct (0 <? cmp x z); [now rewrite IH | reflexivity].
Qed.

Lemma sort_insert_last x l :
  Forall (fun z => (0 <? cmp x z) = true) l ->
  sort_insert cmp x l = l ++ [x].
Proof.
  induction 1 as [|z r Hz Hr IH]; simpl; [reflexivity|].
  now rewrite Hz, IH.
Qed.
End AnyComparator.

(** Two comparators that order by the same strict order [lt], one upwards
    and one downwards. *)
Section UpAndDown.
Variable lt : A -> A -> bool.
Variables up down : A -> A -> Z.
Hypothesis lt_trans :
  forall a b c, lt a b = true -> lt b c = true -> lt a c = true.
Hypothesis lt_asym : forall a b, lt a b = true -> lt b a = false.
Hypothesis up_swaps : forall x y, (0 <? up x y) = lt y x.
Hypothesis down_swaps : forall x y, (0 <? down x y) = lt x y.

Let ordered (a b : A) : Prop := lt a b = true \/ lt b a = true.
Let below (a b : A) : Prop := lt a b = true.

Lemma sort_insert_sorted x l :
  StronglySorted below l -> Forall (ordered x) l ->
  StronglySorted below (sort_insert up x l).
Proof.
  induction 1 as [|y r Hr IH Hy]; intros Hx; simpl.
  - repeat constructor.
  - inversion Hx as [|? ? Hxy Hxr]; subst. rewrite up_swaps.
    destruct (lt y x) eqn:Hyx.
    + constructor; [now apply IH|]. now apply sort_insert_Forall.
    + destruct Hxy as [Hxy|Hxy]; [|congruence].
      constructor; [now constructor|].
      constructor; [exact Hxy|].
      eapply Forall_impl; [|exact Hy]. intros z Hz.
      exact (lt_trans _ _ _ Hxy Hz).
Qed.

Lemma array_sort_sorted l :
  ForallOrdPairs ordered l -> StronglySorted below (array_sort up l).
Proof.
  induction 1 as [|x r Hx Hr IH]; simpl; [constructor|].
  apply sort_insert_sorted; [exact IH|]. now apply array_sort_Forall.
Qed.

Lemma sort_insert_rev x l :
  StronglySorted below l -> Forall (ordered x) l ->
  sort_insert down x (rev l) = rev (sort_insert up x l).
Proof.
  induction 1 as [|y r Hr IH Hy]; intros Hx; [reflexivity|].
  inversion Hx as [|? ? Hxy Hxr]; subst.
  cbn [sort_insert rev]. rewrite up_swaps.
  destruct (lt y x) eqn:Hyx.
  - cbn [rev]. rewrite <- (IH Hxr). apply sort_insert_stops.
    rewrite down_swaps. now apply lt_asym.
  - destruct Hxy as [Hxy|Hxy]; [|congruence].
    cbn [rev]. apply sort_insert_last.
    apply Forall_app; split.
    + apply Forall_rev. eapply Forall_impl; [|exact Hy].
      intros z Hz. rewrite down_swaps. exact (lt_trans _ _ _ Hxy Hz).
    + constructor; [|constructor]. now rewrite down_swaps.
Qed.

Lemma array_sort_down_rev_up l :
  ForallOrdPairs ordered l ->
  array_sort down l = rev (array_sort up l).
Proof.
  induction 1 as [|x r Hx Hr IH]; [reflexivity|].
  cbn [array_sort fold_right]. fold (array_sort down r) (array_sort up r).
  rewrite IH. apply sort_insert_rev.
  - now apply array_sort_sorted.
  - now apply array_sort_Forall.
Qed.

(** A list sorted by a strict order has its elements pairwise ordered. *)
Lemma sorted_ordered l :
  StronglySorted below l -> ForallOrdPairs ordered l.
Proof.
  induction 1 as [|y r Hr IH Hy]; constructor; [|exact IH].
  eapply Forall_impl; [|exact Hy]. intros z Hz. now left.
Qed.
End UpAndDown.
End SortFacts.

(** *** The order on field values *)

Lemma num_ltb_trans a b c :
  num_ltb a b = true -> num_ltb b c = true -> num_ltb a c = true.
Proof.
  destruct a as [|[]|x], b as [|[]|y], c as [|[]|z];
    cbn [num_ltb num_eqb andb negb Bool.eqb];
    try discriminate; try reflexivity.
  destruct (x ?= y)%Q eqn:Hxy; try discriminate.
  destruct (y ?= z)%Q eqn:Hyz; try discriminate. intros _ _.
  apply Qlt_alt in Hxy, Hyz.
  assert (H : (x ?= z)%Q = Lt)
    by (apply Qlt_alt; eapply Qlt_trans; eassumption).
  now rewrite H.
Qed.

Lemma num_ltb_asym a b : num_ltb a b = true -> num_ltb b a = false.
Proof.
  destruct a as [|[]|x], b as [|[]|y];
    cbn [num_ltb num_eqb andb negb Bool.eqb];
    try discriminate; try reflexivity.
  rewrite <- (Qcompare_antisym x y).
  destruct (x ?= y)%Q; simpl; congruence.
Qed.

Lemma num_distinct_ordered a b :
  a <> NaN -> b <> NaN -> num_eqb a b = false ->
  num_ltb a b = true \/ num_ltb b a = true.
Proof.
  destruct a as [|[]|x], b as [|[]|y];
    cbn [num_ltb num_eqb andb negb Bool.eqb]; try congruence; auto.
  intros _ _ H. apply Qeq_bool_neq in H.
  rewrite <- (Qcompare_antisym x y).
  destruct (Qcompare_spec x y) as [E|L|G]; simpl; auto.
Qed.

Lemma num_ltb_not_eqb a b : num_ltb a b = true -> num_eqb a b = false.
Proof.
  destruct a as [|[]|x], b as [|[]|y];
    cbn [num_ltb num_eqb andb negb Bool.eqb];
    try reflexivity; try discriminate.
  destruct (x ?= y)%Q eqn:Hxy; try discriminate. intros _.
  destruct (Qeq_bool x y) eqn:E; [|reflexivity].
  apply Qeq_bool_iff in E.
  assert (E' : (x ?= y)%Q = Eq) by now apply Qeq_alt.
  congruence.
Qed.

(** Two numbers that are [===] to a third are not ordered. *)
Lemma num_eqb_class a b v :
  num_eqb a v = true -> num_eqb b v = true -> num_ltb a b = false.
Proof.
  destruct a as [|[]|x], b as [|[]|y], v as [|[]|q];
    cbn [num_ltb num_eqb andb negb Bool.eqb];
    try discriminate; try reflexivity.
  intros Hx Hy. apply Qeq_bool_iff in Hx, Hy.
  assert (E : (x ?= y)%Q = Eq)
    by (apply Qeq_alt; rewrite Hx, Hy; reflexivity).
  now rewrite E.
Qed.

Lemma string_ltb_asym a b : String.ltb a b = true -> String.ltb b a = false.
Proof.
  unfold String.ltb. rewrite (String.compare_antisym a b).
  destruct (String.compare b a); simpl; congruence.
Qed.

Lemma string_ltb_irrefl a : String.ltb a a = false.
Proof.
  unfold String.ltb. pose proof (String.compare_antisym a a) as H.
  destruct (String.compare a a); simpl in H; congruence.
Qed.

Lemma value_ltb_asym a b : value_ltb a b = true -> value_ltb b a = false.
Proof.
  destruct a, b; simpl; try reflexivity.
  - apply num_ltb_asym.
  - apply string_ltb_asym.
Qed.

Lemma value_eqb_class a b v :
  value_eqb a v = true -> value_eqb b v = true -> value_ltb a b = false.
Proof.
  destruct a, b, v; simpl; try discriminate; try reflexivity.
  - apply num_eqb_class.
  - intros Ha Hb. apply String.eqb_eq in Ha, Hb. subst.
    apply string_ltb_irrefl.
Qed.

(** When the comparator answers a positive number. *)
Lemma compareExpenses_asc k x y :
  (0 <? compareExpenses (mkSortConfig k asc) x y)
  = value_ltb (field k y) (field k x).
Proof.
  unfold compareExpenses; simpl.
  destruct (value_ltb (field k x) (field k y)) eqn:Hxy.
  - now rewrite (value_ltb_asym _ _ Hxy).
  - now destruct (value_ltb (field k y) (field k x)).
Qed.

Lemma compareExpenses_desc k x y :
  (0 <? compareExpenses (mkSortConfig k desc) x y)
  = value_ltb (field k x) (field k y).
Proof.
  unfold compareExpenses; simpl.
  destruct (value_ltb (field k x) (field k y)) eqn:Hxy; [reflexivity|].
  now destruct (value_ltb (field k y) (field k x)).
Qed.

Lemma compareExpenses_class k d v a b :
  value_eqb (field k a) v = true -> value_eqb (field k b) v = true ->
  (0 <? compareExpenses (mkSortConfig k d) a b) = false.
Proof.
  intros Ha Hb. unfold compareExpenses; simpl.
  rewrite (value_eqb_class _ _ _ Ha Hb), (value_eqb_class _ _ _ Hb Ha).
  reflexivity.
Qed.

Lemma distinct_amounts_ordered es :
  distinct_amounts es ->
  ForallOrdPairs
    (fun a b => amount_ltb a b = true \/ amount_ltb b a = true) es.
Proof.
  intros [Hn Hd]. induction Hd as [|x r Hx Hr IH].
  - constructor.
  - inversion Hn as [|? ? Hnx Hnr]; subst. constructor; [|now apply IH].
    rewrite Forall_forall in *. intros y Hy.
    apply num_distinct_ordered; auto.
Qed.

Lemma sortBy_amount_desc_rev es :
  ForallOrdPairs
    (fun a b => amount_ltb a b = true \/ amount_ltb b a = true) es ->
  sortBy es k_amount desc = rev (sortBy es k_amount asc).
Proof.
  intros H. unfold sortBy.
  apply (array_sort_down_rev_up amount_ltb); try exact H.
  - intros a b c. apply num_ltb_trans.
  - intros a b. apply num_ltb_asym.
  - intros x y. apply (compareExpenses_asc k_amount).
  - intros x y. apply (compareExpenses_desc k_amount).
Qed.

Lemma sortBy_amount_asc_sorted es :
  ForallOrdPairs
    (fun a b => amount_ltb a b = true \/ amount_ltb b a = true) es ->
  StronglySorted (fun a b => amount_ltb a b = true) (sortBy es k_amount asc).
Proof.
  intros H. unfold sortBy.
  apply (array_sort_sorted amount_ltb); try exact H.
  - intros a b c. apply num_ltb_trans.
  - intros x y. apply (compareExpenses_asc k_amount).
Qed.

Lemma sortBy_amount_asc_idem es :
  StronglySorted (fun a b => amount_ltb a b = true) es ->
  sortBy es k_amount asc = es.
Proof.
  unfold sortBy. induction 1 as [|x r Hr IH Hx]; [reflexivity|].
  cbn [array_sort fold_right].
  fold (array_sort (compareExpenses (mkSortConfig k_amount asc)) r).
  rewrite IH. destruct r as [|y r']; [reflexivity|].
  cbn [sort_insert]. rewrite compareExpenses_asc.
  inversion Hx as [|? ? Hxy _]; subst. unfold amount_ltb in Hxy.
  cbn [field value_ltb]. now rewrite (num_ltb_asym _ _ Hxy).
Qed.

(** C7. Sorting by amount downwards gives the exact reverse of sorting
    upwards when all the amounts are distinct numbers, whether the second
    sort starts from the original list or from the list already sorted
    upwards; and for every key and both directions the sort is stable: the
    expenses whose key value is [===] to a given value come out in the
    order they went in.  Amounts are numbers throughout: a sort by amount
    is stated of lists in which no amount is [NaN]. *)
Theorem sortBy_reverse_and_stable (es : list Expense) :
  (distinct_amounts es ->
   sortBy es k_amount desc = rev (sortBy es k_amount asc) /\
   sortBy (sortBy es k_amount asc) k_amount desc
   = rev (sortBy es k_amount asc)) /\
  (forall (k : ExpenseKey) (d : Direction) (v : value),
     (k = k_amount -> Forall (fun e => e_amount e <> NaN) es) ->
     filter (fun e => value_eqb (field k e) v) (sortBy es k d)
     = filter (fun e => value_eqb (field k e) v) es).
Proof.
  split.
  - intros Hd. pose proof (distinct_amounts_ordered es Hd) as Ho.
    split; [now apply sortBy_amount_desc_rev|].
    pose proof (sortBy_amount_asc_sorted es Ho) as Hs.
    rewrite sortBy_amount_desc_rev.
    + now rewrite (sortBy_amount_asc_idem _ Hs).
    + apply (sorted_ordered amount_ltb). exact Hs.
  - intros k d v _. unfold sortBy. apply array_sort_filter.
    intros a b. apply compareExpenses_class.
Qed.

(** Ties keep the order they came in, upwards and downwards. *)
Example sortBy_ties :
  map e_id (sortBy (threeExpenses ++ threeExpenses) k_amount asc)
  = ["b"; "b"; "c"; "c"; "a"; "a"] /\
  map e_id (sortBy tiedExpenses k_amount asc) = ["t2"; "t1"; "t3"] /\
  map e_id (sortBy tiedExpenses k_amount desc) = ["t1"; "t3"; "t2"].
Proof. repeat split; vm_compute; reflexivity. Qed.

(** The budget figures of a workspace with a limit of 1000 and expenses of
    200, 300 and 150. *)
Example budget_figures :
  totalSpent budgetScenario = Some (Num 650) /\
  budgetRemaining budgetScenario = Some (Num 350) /\
  spendingPercentage budgetScenario = Some (Num 65).
Proof. repeat split; vm_compute; reflexivity. Qed.

(* ================================================================== *)
(** ** Runs *)

Lemma run_reachable script : forall s s',
  reachable s -> run s script = Some s' -> reachable s'.
Proof.
  induction script as [|a r IH]; simpl; intros s s' Hs Hrun.
  - now inversion Hrun; subst.
  - destruct (offered s a) eqn:Ho; [|discriminate].
    eapply IH; [|exact Hrun]. now apply reach_step.
Qed.

Lemma existsb_id_In (us : list User) (uid : string) :
  existsb (fun u => String.eqb (u_id u) uid) us = true <->
  exists u, In u us /\ u_id u = uid.
Proof.
  rewrite existsb_exists. split; intros [u [Hin H]]; exists u; split; auto.
  - now apply String.eqb_eq.
  - now apply String.eqb_eq.
Qed.

(* ================================================================== *)
(** ** Deleting expenses *)

Lemma canModifyTransaction_member s e :
  canModifyTransaction s e = Some true <-> memberOfCurrentWorkspace s.
Proof.
  unfold canModifyTransaction, memberOfCurrentWorkspace. split.
  - destruct (activeUser s) as [au|]; [|discriminate].
    destruct (currentWorkspace s) as [cw|]; [|discriminate].
    intros H. exists au, cw. repeat split.
    apply existsb_id_In. congruence.
  - intros (au & cw & -> & -> & H). f_equal. now apply existsb_id_In.
Qed.

Lemma deleteExpense_member s e :
  memberOfCurrentWorkspace s ->
  deleteExpense s e true
  = (with_expenses s
       (filter (fun x => negb (String.eqb (e_id x) (e_id e))) (expenses s)),
     Done).
Proof.
  intros H. apply (canModifyTransaction_member s e) in H.
  unfold deleteExpense. now rewrite H.
Qed.

Lemma lockedOut_reachable : reachable lockedOut.
Proof.
  apply (run_reachable lockedOutScript initialState); [constructor|].
  vm_compute. reflexivity.
Qed.

(** Whoever is signed in, and whether or not that user belongs to the
    workspace, a confirmed bulk delete removes every selected expense. *)
Lemma deleteSelectedExpenses_removes s ids e :
  In (e_id e) ids ->
  ~ In e (expenses (fst (deleteSelectedExpenses s ids true))).
Proof.
  intros Hid Hin. cbn in Hin. apply filter_In in Hin.
  destruct Hin as [_ Hkeep]. apply negb_true_iff in Hkeep.
  assert (Hinc : ids_include ids (e_id e) = true).
  { unfold ids_include. apply existsb_exists. exists (e_id e).
    split; [exact Hid | apply String.eqb_refl]. }
  congruence.
Qed.

(** C1. The bulk path holds no authorization check.  In a reachable state
    whose active user is not a member of the current workspace, the single
    delete of the lunch is refused with the permission alert and changes
    nothing, while the bulk delete of the selection holding that same
    expense removes it. *)
Theorem deleteSelectedExpenses_without_authorization :
  reachable lockedOut /\
  expenses lockedOut = [lunch] /\
  canModifyTransaction lockedOut lunch = Some false /\
  deleteExpense lockedOut lunch true = (lockedOut, PermissionDenied) /\
  deleteSelectedExpenses lockedOut [e_id lunch] true
  = (with_expenses lockedOut [], Done).
Proof.
  split; [exact lockedOut_reachable|].
  repeat split; vm_compute; reflexivity.
Qed.

(** C10. The permission helper never reads its argument: it gives the
    same answer for any two expenses, and answers yes exactly when the
    active user is on the member list of the current workspace.  Hence a
    confirmed [deleteExpense] by such a member removes every expense with
    the id of the one passed and keeps all the others, whatever workspace
    the expense passed belongs to. *)
Theorem canModifyTransaction_ignores_expense (s : AppState) (e1 e2 : Expense) :
  canModifyTransaction s e1 = canModifyTransaction s e2 /\
  (canModifyTransaction s e1 = Some true <-> memberOfCurrentWorkspace s) /\
  (memberOfCurrentWorkspace s ->
   snd (deleteExpense s e2 true) = Done /\
   (forall x, In x (expenses (fst (deleteExpense s e2 true))) <->
              In x (expenses s) /\ e_id x <> e_id e2) /\
   with_expenses (fst (deleteExpense s e2 true)) (expenses s) = s).
Proof.
  split; [reflexivity|]. split; [apply canModifyTransaction_member|].
  intros H. rewrite (deleteExpense_member s e2 H). cbn [fst snd].
  split; [reflexivity|]. split.
  - intros x. cbn [expenses with_expenses]. rewrite filter_In.
    rewrite negb_true_iff, String.eqb_neq. reflexivity.
  - destruct s; reflexivity.
Qed.

Lemma crossState_member : memberOfCurrentWorkspace crossState.
Proof.
  eexists; eexists. split; [reflexivity|]. split; [reflexivity|].
  eexists. split; [left; reflexivity | reflexivity].
Defined.

Lemma canModifyTransaction_ignores_expense_witness :
  e_workspaceId elsewhere <> currentWorkspaceId crossState /\
  memberOfCurrentWorkspace crossState /\
  snd (deleteExpense crossState elsewhere true) = Done.
Proof.
  split; [discriminate|]. split; [exact crossState_member|].
  exact (proj1 (proj2 (proj2 (canModifyTransaction_ignores_expense
                                crossState lunch elsewhere))
                      crossState_member)).
Defined.

(* ================================================================== *)
(** ** The user directory *)

Lemma eqb_opt_true x y : eqb_opt x y = true <-> y = Some x.
Proof.
  destruct y as [z|]; simpl.
  - rewrite String.eqb_eq. split; congruence.
  - split; discriminate.
Qed.

Lemma eqb_opt_false x y : eqb_opt x y = false <-> y <> Some x.
Proof.
  rewrite <- (eqb_opt_true x y). destruct (eqb_opt x y); split; congruence.
Qed.

Lemma Forall2_map_self {A B : Type} (R : A -> B -> Prop) (f : A -> B) l :
  (forall x, In x l -> R x (f x)) -> Forall2 R l (map f l).
Proof.
  induction l as [|x r IH]; intros H; simpl; constructor.
  - apply H. now left.
  - apply IH. intros y Hy. apply H. now right.
Qed.

Lemma filter_other_ids (us : list User) (uid : string) (u : User) :
  In u (filter (fun x => negb (String.eqb (u_id x) uid)) us) <->
  In u us /\ u_id u <> uid.
Proof.
  now rewrite filter_In, negb_true_iff, String.eqb_neq.
Qed.

(** C3, as the code has it.  Deleting the active user never changes the
    state: an administrator gets the safety-lock alert, and any other
    requestor is turned away before that, silently, by the administrator
    gate.  For an administrator and another target, once the dialog is
    confirmed, the target leaves the directory and every workspace's member
    list, and the expenses are left as they were. *)
Theorem handleDeleteUser_spec (s : AppState) (userId : string)
  (confirmed : bool) :
  (activeUserId s = Some userId ->
   handleDeleteUser s userId confirmed
   = (s, if isAdmin s then SelfDeletionForbidden else Ignored)) /\
  (isAdmin s = true -> activeUserId s <> Some userId ->
   snd (handleDeleteUser s userId true) = Done /\
   (forall u, In u (users (fst (handleDeleteUser s userId true))) <->
              In u (users s) /\ u_id u <> userId) /\
   Forall2 (stripped userId) (workspaces s)
           (workspaces (fst (handleDeleteUser s userId true))) /\
   expenses (fst (handleDeleteUser s userId true)) = expenses s).
Proof.
  unfold handleDeleteUser. split.
  - intros Ha. apply eqb_opt_true in Ha.
    destruct (isAdmin s); cbn [negb]; [now rewrite Ha | reflexivity].
  - intros Hadm Hne. apply eqb_opt_false in Hne. rewrite Hadm, Hne.
    cbn [negb fst snd users workspaces expenses].
    split; [reflexivity|]. split; [apply filter_other_ids|].
    split; [|reflexivity].
    apply Forall2_map_self. intros w _. unfold stripped.
    cbn [with_w_users w_id w_name w_currency w_budget w_users].
    repeat (split; [reflexivity|]). intros u. apply filter_other_ids.
Qed.

Lemma memberState_reachable : reachable memberState.
Proof.
  exact (reach_step initialState (SignUp 5 "Bob" "bob@x.io" "pw" "pw")
                    reach_init eq_refl).
Qed.

(** A member who asks to delete his own profile gets no safety-lock
    alert. *)
Lemma handleDeleteUser_member_self :
  reachable memberState /\
  activeUserId memberState = Some "u-5" /\
  isAdmin memberState = false /\
  snd (handleDeleteUser memberState "u-5" true) <> SelfDeletionForbidden.
Proof.
  split; [exact memberState_reachable|].
  repeat split; try reflexivity. vm_compute. discriminate.
Qed.

(* ================================================================== *)
(** ** Workspace membership *)

Section Toggle.
Variables (s : AppState) (userId : string).

Let here (w : Workspace) : bool :=
  String.eqb (w_id w) (currentWorkspaceId s).
Let other (u : User) : bool := negb (String.eqb (u_id u) userId).

(** X27. The toggle never produces an empty member list: if every
    workspace has a member before it, every workspace has one after it. *)
Lemma toggleWorkspaceMember_nonEmpty :
  nonEmptyWorkspaces s ->
  nonEmptyWorkspaces (fst (toggleWorkspaceMember s userId)).
Proof.
  unfold nonEmptyWorkspaces, toggleWorkspaceMember. intros H.
  destruct (negb (isAdmin s)); [exact H|].
  destruct (find _ (users s)) as [user|]; [|exact H].
  destruct (find _ (workspaces s)) as [ws|]; [|exact H].
  match goal with |- context [(length ?l =? 0)%nat] =>
    destruct (length l =? 0)%nat eqn:Hlen; [exact H|];
    assert (Hne : l <> []) by
      (intros E; rewrite E in Hlen; discriminate)
  end.
  cbn [fst workspaces with_workspaces].
  apply Forall_map. eapply Forall_impl; [|exact H].
  intros w Hw. destruct (String.eqb (w_id w) (currentWorkspaceId s));
    [exact Hne | exact Hw].
Qed.

Hypothesis admin : isAdmin s = true.
Variable ws : Workspace.
Hypothesis current : find here (workspaces s) = Some ws.

(** X28. Removing the only member of the current workspace changes
    nothing, and is refused with the last-member alert when that member is
    in the directory. *)
Lemma toggleWorkspaceMember_last :
  w_users ws <> [] ->
  Forall (fun u => u_id u = userId) (w_users ws) ->
  fst (toggleWorkspaceMember s userId) = s /\
  (forall user,
      find (fun u => String.eqb (u_id u) userId) (users s) = Some user ->
      snd (toggleWorkspaceMember s userId) = LastMemberProtection).
Proof.
  intros Hne Hall. unfold toggleWorkspaceMember. rewrite admin. cbn [negb].
  destruct (find _ (users s)) as [user|]; [|split; [reflexivity|discriminate]].
  fold here. rewrite current.
  assert (Hmem : existsb (fun u => String.eqb (u_id u) userId) (w_users ws)
                 = true).
  { destruct (w_users ws) as [|m r]; [congruence|].
    inversion Hall; subst. simpl. now rewrite String.eqb_refl. }
  assert (Hnone : filter other (w_users ws) = []).
  { clear Hne Hmem. induction Hall as [|m r Hm Hr IH]; [reflexivity|].
    simpl. unfold other at 1. rewrite Hm, String.eqb_refl. exact IH. }
  rewrite Hmem. fold other. rewrite Hnone. cbn.
  split; [reflexivity | intros _ _; reflexivity].
Qed.

Variable user : User.
Hypothesis known :
  find (fun u => String.eqb (u_id u) userId) (users s) = Some user.

(** Removing a member who is not the last one succeeds. *)
Lemma toggleWorkspaceMember_remove (m o : User) :
  In m (w_users ws) -> u_id m = userId ->
  In o (w_users ws) -> u_id o <> userId ->
  toggleWorkspaceMember s userId
  = (with_workspaces s
       (map (fun w => if here w
                      then with_w_users w (filter other (w_users ws))
                      else w)
            (workspaces s)),
     Done).
Proof.
  intros Hm Hmid Ho Hoid. unfold toggleWorkspaceMember.
  rewrite admin, known. cbn [negb]. fold here. rewrite current.
  assert (Hmem : existsb (fun u => String.eqb (u_id u) userId) (w_users ws)
                 = true) by (apply existsb_id_In; eauto).
  rewrite Hmem. fold other.
  assert (Hin : In o (filter other (w_users ws))).
  { apply filter_In. split; [exact Ho|]. unfold other.
    now rewrite negb_true_iff, String.eqb_neq. }
  destruct (filter other (w_users ws)) as [|x r]; [contradiction|].
  reflexivity.
Qed.

(** Toggling a known user who is not a member adds that user. *)
Lemma toggleWorkspaceMember_add :
  Forall (fun u => u_id u <> userId) (w_users ws) ->
  toggleWorkspaceMember s userId
  = (with_workspaces s
       (map (fun w => if here w
                      then with_w_users w (w_users ws ++ [user])
                      else w)
            (workspaces s)),
     Done).
Proof.
  intros Hnot. unfold toggleWorkspaceMember.
  rewrite admin, known. cbn [negb]. fold here. rewrite current.
  assert (Hmem : existsb (fun u => String.eqb (u_id u) userId) (w_users ws)
                 = false).
  { destruct (existsb _ (w_users ws)) eqn:E; [|reflexivity].
    apply existsb_id_In in E. destruct E as [u [Hin Hu]].
    rewrite Forall_forall in Hnot. now apply Hnot in Hin. }
  rewrite Hmem. rewrite length_app, Nat.add_comm. reflexivity.
Qed.
End Toggle.

Lemma soleMember_reachable : reachable soleMember.
Proof.
  apply (run_reachable soleMemberScript initialState); [constructor|].
  vm_compute. reflexivity.
Qed.

(** C2. Deleting a user filters every member list with no look at what
    is left.  From the reachable state in which Bob is the only member of
    the workspace (a state in which toggling Bob is refused with the
    last-member alert), the administrator's confirmed deletion of Bob is
    offered, succeeds, and leaves a reachable state whose workspace has no
    member at all. *)
Theorem handleDeleteUser_empties_workspace :
  reachable soleMember /\
  map (fun w => map u_id (w_users w)) (workspaces soleMember) = [["u-5"]] /\
  toggleWorkspaceMember soleMember "u-5" = (soleMember, LastMemberProtection) /\
  offered soleMember (DeleteUser "u-5" true) = true /\
  snd (handleDeleteUser soleMember "u-5" true) = Done /\
  reachable (fst (handleDeleteUser soleMember "u-5" true)) /\
  map w_users (workspaces (fst (handleDeleteUser soleMember "u-5" true)))
  = [[]] /\
  ~ nonEmptyWorkspaces (fst (handleDeleteUser soleMember "u-5" true)).
Proof.
  split; [exact soleMember_reachable|].
  split; [reflexivity|]. split; [vm_compute; reflexivity|].
  split; [reflexivity|]. split; [reflexivity|].
  split.
  - exact (reach_step soleMember (DeleteUser "u-5" true)
                      soleMember_reachable eq_refl).
  - split; [reflexivity|]. intros H. inversion H as [|w r Hw _]; subst.
    now apply Hw.
Qed.

(* ================================================================== *)
(** ** Editing one's own profile *)

Lemma Forall2_In_r {A B : Type} (R : A -> B -> Prop) l l' y :
  Forall2 R l l' -> In y l' -> exists x, In x l /\ R x y.
Proof.
  induction 1 as [|a b l l' Hab Hl IH]; simpl; [contradiction|].
  intros [<-|Hy].
  - exists a. auto.
  - destruct (IH Hy) as [x [Hx Hr]]. exists x. auto.
Qed.

(** C4. When the active user saves a new profile, position by position:
    each of that user's expenses takes the new name and avatar and keeps
    all its other fields, each expense of anybody else is identical to what
    it was, and in the directory and in every workspace each record with
    that user's id is replaced by the updated record while the other
    records stay.  So afterwards every expense of that user carries the new
    name and avatar, and every membership record of that user is the
    updated record. *)
Theorem handleSaveSelfProfile_cascade (s : AppState) (au : User)
  (name email avatar : string) :
  activeUser s = Some au ->
  let s' := fst (handleSaveSelfProfile s name email avatar) in
  let updated := with_profile au name email avatar in
  snd (handleSaveSelfProfile s name email avatar) = Done /\
  Forall2 (resynced (u_id au) name avatar) (expenses s) (expenses s') /\
  (forall e', In e' (expenses s') -> e_userId e' = u_id au ->
              e_userName e' = name /\ e_userAvatar e' = avatar) /\
  Forall2 (rewritten (u_id au) updated) (users s) (users s') /\
  Forall2 (fun w w' =>
             w_id w' = w_id w /\ w_name w' = w_name w /\
             w_currency w' = w_currency w /\ w_budget w' = w_budget w /\
             Forall2 (rewritten (u_id au) updated) (w_users w) (w_users w'))
          (workspaces s) (workspaces s') /\
  (forall w' m', In w' (workspaces s') -> In m' (w_users w') ->
                 u_id m' = u_id au -> m' = updated).
Proof.
  intros Hau s' updated. subst s'. unfold handleSaveSelfProfile.
  rewrite Hau. cbn [fst snd expenses users workspaces]. fold updated.
  assert (Hexp : Forall2 (resynced (u_id au) name avatar) (expenses s)
            (map (fun exp => if String.eqb (e_userId exp) (u_id au)
                             then with_owner exp (u_name updated)
                                             (u_avatar updated)
                             else exp) (expenses s))).
  { apply Forall2_map_self. intros e _. unfold resynced.
    destruct (String.eqb_spec (e_userId e) (u_id au)) as [E|E].
    - split; [intros _; cbn; repeat split | contradiction].
    - split; [contradiction | reflexivity]. }
  assert (Hrew : forall us, Forall2 (rewritten (u_id au) updated) us
            (map (fun u => if String.eqb (u_id u) (u_id au)
                           then updated else u) us)).
  { intros us. apply Forall2_map_self. intros u _. unfold rewritten.
    destruct (String.eqb_spec (u_id u) (u_id au)) as [E|E];
      split; auto; contradiction. }
  assert (Hws : Forall2 (fun w w' =>
             w_id w' = w_id w /\ w_name w' = w_name w /\
             w_currency w' = w_currency w /\ w_budget w' = w_budget w /\
             Forall2 (rewritten (u_id au) updated) (w_users w) (w_users w'))
            (workspaces s)
            (map (fun ws => with_w_users ws
                    (map (fun u => if String.eqb (u_id u) (u_id au)
                                   then updated else u) (w_users ws)))
                 (workspaces s))).
  { apply Forall2_map_self. intros w _. cbn. repeat split. apply Hrew. }
  split; [reflexivity|]. split; [exact Hexp|]. split.
  { intros e' Hin Hid.
    destruct (Forall2_In_r _ _ _ _ Hexp Hin) as [e [_ [Hown Hoth]]].
    destruct (String.eqb_spec (e_userId e) (u_id au)) as [E|E].
    - destruct (Hown E) as (Hn & Ha & _). now split.
    - rewrite (Hoth E) in Hid. contradiction. }
  split; [apply Hrew|]. split; [exact Hws|].
  intros w' m' Hw Hm Hid.
  destruct (Forall2_In_r _ _ _ _ Hws Hw) as [w [_ (_ & _ & _ & _ & Hus)]].
  destruct (Forall2_In_r _ _ _ _ Hus Hm) as [m [_ [Hsame Hoth]]].
  destruct (String.eqb_spec (u_id m) (u_id au)) as [E|E].
  - now apply Hsame.
  - rewrite (Hoth E) in Hid. contradiction.
Qed.

Lemma handleSaveSelfProfile_cascade_witness :
  activeUser lockedOut = Some bob /\
  expenses (fst (handleSaveSelfProfile lockedOut "Robert" "rob@x.io" "r.png"))
  = [with_owner lunch "Robert" "r.png"] /\
  snd (handleSaveSelfProfile lockedOut "Robert" "rob@x.io" "r.png") = Done.
Proof.
  split; [reflexivity|]. split; [reflexivity|].
  exact (proj1 (handleSaveSelfProfile_cascade lockedOut bob
                  "Robert" "rob@x.io" "r.png" eq_refl)).
Defined.

(* ================================================================== *)
(** ** Adding an expense *)

Lemma truthy_false t : truthy t = false <-> t = "".
Proof. destruct t; simpl; split; congruence. Qed.

Lemma truthy_true t : truthy t = true <-> t <> "".
Proof. destruct t; simpl; split; congruence. Qed.

(** C5, as the code has it.  The handler returns without a word and
    without touching the state when the description or the amount text is
    empty; it never looks at the sign of the amount.  With both texts
    filled in, an active user and a current workspace, the new expense,
    whose amount is whatever [parseFloat] reads, is put at the head of the
    ledger with the owner's id, name and avatar copied from the active
    user, and the rest of the state stays. *)
Theorem handleAddExpense_spec (s : AppState) (now : Z)
  (today description amount : string) (category : Category) :
  (description = "" \/ amount = "" ->
   handleAddExpense s now today description amount category = (s, Ignored)) /\
  (forall au cw,
     description <> "" -> amount <> "" ->
     activeUser s = Some au -> currentWorkspace s = Some cw ->
     snd (handleAddExpense s now today description amount category) = Done /\
     exists e,
       fst (handleAddExpense s now today description amount category)
       = with_expenses s (e :: expenses s) /\
       e_userId e = u_id au /\ e_userName e = u_name au /\
       e_userAvatar e = u_avatar au /\
       e_amount e = parseFloat amount /\ e_description e = description /\
       e_category e = category /\ e_date e = today /\
       e_workspaceId e = w_id cw /\ e_id e = Z_to_string now).
Proof.
  unfold handleAddExpense. split.
  - intros [H|H]; apply truthy_false in H; rewrite H;
      [reflexivity | now rewrite orb_true_r].
  - intros au cw Hd Ha Hau Hcw.
    apply truthy_true in Hd, Ha. rewrite Hd, Ha, Hau, Hcw.
    cbn [negb orb fst snd].
    split; [reflexivity|]. eexists. split; [reflexivity|].
    cbn. repeat split.
Qed.

Lemma adminSignedIn_reachable : reachable adminSignedIn.
Proof.
  exact (reach_step initialState (SignIn (Some "u1") "admin")
                    reach_init eq_refl).
Qed.

(** Amounts that are not positive are taken: a negative one and zero both
    end up in the ledger. *)
Lemma handleAddExpense_takes_non_positive :
  reachable adminSignedIn /\
  num_positive (parseFloat "-5") = false /\
  snd (handleAddExpense adminSignedIn 7 "2024-01-01" "Refund" "-5" OTHER)
  = Done /\
  map e_amount
      (expenses
         (fst (handleAddExpense adminSignedIn 7 "2024-01-01" "Refund" "-5"
                                OTHER)))
  = [Num (-5)] /\
  expenses adminSignedIn = [] /\
  num_positive (parseFloat "0") = false /\
  map e_amount
      (expenses
         (fst (handleAddExpense adminSignedIn 8 "2024-01-01" "Nothing" "0"
                                OTHER)))
  = [Num 0].
Proof.
  split; [exact adminSignedIn_reachable|].
  repeat split; vm_compute; reflexivity.
Qed.

Lemma handleAddExpense_spec_witness :
  handleAddExpense adminSignedIn 7 "2024-01-01" "" "12" FOOD
  = (adminSignedIn, Ignored) /\
  snd (handleAddExpense adminSignedIn 7 "2024-01-01" "Lunch" "12" FOOD) = Done.
Proof.
  split.
  - exact (proj1 (handleAddExpense_spec adminSignedIn 7 "2024-01-01" "" "12"
                    FOOD) (or_introl eq_refl)).
  - refine (proj1 (proj2 (handleAddExpense_spec adminSignedIn 7 "2024-01-01"
                             "Lunch" "12" FOOD)
                         _ _ _ _ eq_refl eq_refl)); discriminate.
Defined.

(* ================================================================== *)
(** ** The budget *)

Lemma Forall_map_kept {A : Type} (P : A -> Prop) (f : A -> A) l :
  (forall x, P x -> P (f x)) -> Forall P l -> Forall P (map f l).
Proof.
  intros Hf H. apply Forall_map. eapply Forall_impl; [|exact H]. exact Hf.
Qed.

Ltac split_handler :=
  repeat match goal with
    | |- context [if ?c then _ else _] => destruct c
    | |- context [match ?x with Some _ => _ | None => _ end] => destruct x
    | |- context [match ?x with EmptyString => _ | String _ _ => _ end] =>
        destruct x
    end.

Lemma handle_positiveBudgets s a :
  positiveEntry a -> positiveBudgets s -> positiveBudgets (fst (handle s a)).
Proof.
  unfold positiveBudgets. intros Ha H.
  destruct a; cbn [handle];
    unfold handleSignUp, handleSignIn, handleLogout, handleUpdateTheme,
      handleSaveSelfProfile, handleDeleteUser, toggleWorkspaceMember,
      handleAddExpense, deleteExpense, deleteSelectedExpenses, setCurrency,
      setBudget, setActiveView;
    split_handler; cbn [fst workspaces with_workspaces with_users
                        with_expenses with_activeUserId with_activeView];
    try exact H;
    try (apply Forall_map_kept; [|exact H]; intros ? Hw;
         split_handler; exact Hw || exact Ha).
  destruct (workspaces s) as [|w r]; [constructor|].
  inversion H; subst. constructor; assumption.
Qed.

Lemma run_positiveBudgets script : forall s s',
  Forall positiveEntry script -> positiveBudgets s ->
  run s script = Some s' -> positiveBudgets s'.
Proof.
  induction script as [|a r IH]; simpl; intros s s' Hp Hs Hrun.
  - now inversion Hrun; subst.
  - inversion Hp; subst. destruct (offered s a); [|discriminate].
    eapply IH; [eassumption | | exact Hrun].
    now apply handle_positiveBudgets.
Qed.

Lemma currentWorkspace_In s cw :
  currentWorkspace s = Some cw -> In cw (workspaces s).
Proof.
  unfold currentWorkspace.
  destruct (find _ (workspaces s)) as [w|] eqn:E.
  - intros H; inversion H; subst. now apply find_some in E.
  - destruct (workspaces s); simpl; [discriminate|].
    intros H; inversion H; subst. now left.
Qed.

Lemma num_positive_not_zero n :
  num_positive n = true -> num_eqb n (num_of_Z 0) = false.
Proof.
  unfold num_positive, num_of_Z. destruct n as [|[]|q]; try reflexivity.
  cbn [num_ltb num_eqb]. intros H.
  destruct (Qeq_bool q (inject_Z 0)) eqn:E; [|reflexivity].
  apply Qeq_bool_iff in E.
  assert (E' : (inject_Z 0 ?= q)%Q = Eq) by (apply Qeq_alt; now symmetry).
  rewrite E' in H. discriminate.
Qed.

(** What [parseFloat] makes of a few texts: exponents are read, and a
    decimal beyond the doubles at either end becomes zero or an infinity. *)
Example parseFloat_reads :
  parseFloat "2.5e3" = Num 2500 /\ parseFloat " 12px" = Num 12 /\
  parseFloat "1e-400" = Num 0 /\ parseFloat "1e400" = Inf false /\
  parseFloat "-Infinity" = Inf true /\ parseFloat "e5" = NaN.
Proof. vm_compute. repeat split. Qed.

(** C6, as the code has it.  The budget input exists for an administrator
    only, and its handler stores what [parseFloat] reads from the text in
    every workspace carrying the current workspace's id, with no check on
    the value: the other workspaces and the rest of the state stay.  So
    the budgets stay strictly positive, and the divisor of the spending
    percentage stays away from zero, along every run from the default state
    in which each budget typed reads as a positive number.  A positive
    decimal too small for a double, such as [1e-400], reads as zero and is
    not among them. *)
Theorem setBudget_spec :
  (forall s text, isAdmin s = false -> setBudget s text = (s, Ignored)) /\
  (forall s text cw,
     isAdmin s = true -> currentWorkspace s = Some cw ->
     snd (setBudget s text) = Done /\
     Forall2 (fun w w' =>
                (w_id w = w_id cw -> w' = with_w_budget w (parseFloat text)) /\
                (w_id w <> w_id cw -> w' = w))
             (workspaces s) (workspaces (fst (setBudget s text))) /\
     with_workspaces (fst (setBudget s text)) (workspaces s) = s) /\
  (forall script s,
     Forall positiveEntry script -> run initialState script = Some s ->
     positiveBudgets s /\
     forall cw, currentWorkspace s = Some cw ->
                num_positive (w_budget cw) = true /\
                num_eqb (w_budget cw) (num_of_Z 0) = false).
Proof.
  split; [|split].
  - intros s text H. unfold setBudget. now rewrite H.
  - intros s text cw Hadm Hcw. unfold setBudget. rewrite Hadm, Hcw.
    cbn [negb fst snd workspaces with_workspaces].
    split; [reflexivity|]. split; [|destruct s; reflexivity].
    apply Forall2_map_self. intros w _.
    destruct (String.eqb_spec (w_id w) (w_id cw)); split; auto; contradiction.
  - intros script s Hp Hrun.
    assert (Hs : positiveBudgets s).
    { eapply run_positiveBudgets; [exact Hp | | exact Hrun].
      repeat constructor. }
    split; [exact Hs|]. intros cw Hcw.
    apply currentWorkspace_In in Hcw. unfold positiveBudgets in Hs.
    rewrite Forall_forall in Hs. specialize (Hs cw Hcw).
    split; [exact Hs | now apply num_positive_not_zero].
Qed.

(** A budget of zero is stored, in a reachable state, and the spending
    percentage is then a division by zero. *)
Lemma setBudget_takes_zero :
  reachable zeroBudget /\
  snd (setBudget adminSignedIn "0") = Done /\
  map w_budget (workspaces zeroBudget) = [Num 0] /\
  ~ positiveBudgets zeroBudget /\
  spendingPercentage zeroBudget = Some NaN.
Proof.
  split.
  - exact (reach_step adminSignedIn (SetBudget "0")
                      adminSignedIn_reachable eq_refl).
  - split; [reflexivity|]. split; [reflexivity|]. split; [|reflexivity].
    intros H. inversion H as [|w r Hw _]; subst. discriminate Hw.
Qed.

(** So is a positive budget too small for a double. *)
Example setBudget_underflow :
  snd (setBudget adminSignedIn "1e-400") = Done /\
  map w_budget (workspaces (fst (setBudget adminSignedIn "1e-400")))
  = [Num 0].
Proof. vm_compute. split; reflexivity. Qed.

Lemma setBudget_spec_witness :
  isAdmin initialState = false /\
  setBudget initialState "100" = (initialState, Ignored) /\
  snd (setBudget adminSignedIn "100") = Done /\
  Forall positiveEntry [SignIn (Some "u1") "admin"; SetBudget "2.5e3"] /\
  positiveBudgets
    (fst (handle adminSignedIn (SetBudget "2.5e3"))).
Proof.
  split; [reflexivity|]. split.
  - exact (proj1 setBudget_spec initialState "100" eq_refl).
  - split.
    + exact (proj1 (proj1 (proj2 setBudget_spec) adminSignedIn "100"
                      DEFAULT_WORKSPACE eq_refl eq_refl)).
    + assert (H : Forall positiveEntry
                    [SignIn (Some "u1") "admin"; SetBudget "2.5e3"])
        by (repeat constructor).
      split; [exact H|].
      exact (proj1 (proj2 (proj2 setBudget_spec)
                      [SignIn (Some "u1") "admin"; SetBudget "2.5e3"] _ H
                      eq_refl)).
Defined.

(* ================================================================== *)
(** ** Signing up and signing in *)

Lemma find_app_last {A : Type} (p : A -> bool) (l : list A) (x : A) :
  Forall (fun y => p y = false) l -> p x = true ->
  find p (l ++ [x]) = Some x.
Proof.
  induction 1 as [|y r Hy Hr IH]; intros Hx; simpl.
  - now rewrite Hx.
  - rewrite Hy. now apply IH.
Qed.

Lemma emailTaken_true s email :
  emailTaken s email = true <->
  exists u, In u (users s) /\ toLowerCase (u_email u) = toLowerCase email.
Proof.
  unfold emailTaken. rewrite existsb_exists.
  split; intros [u [Hin H]]; exists u; split; auto; now apply String.eqb_eq.
Qed.

(** *** Letter case *)

Lemma lower_char_swap_case c : lower_char (swap_case c) = lower_char c.
Proof.
  destruct c as [[] [] [] [] [] [] [] []]; reflexivity.
Qed.

Lemma sameUpToCase_toLowerCase a b :
  sameUpToCase a b -> toLowerCase a = toLowerCase b.
Proof.
  induction 1 as [|c d s t Hcd Hst IH]; simpl; [reflexivity|].
  destruct Hcd as [E|E]; subst d.
  - now rewrite IH.
  - now rewrite lower_char_swap_case, IH.
Qed.

(** C9. Signing up with an email that matches an existing user's email
    once both are put in lower case (in particular one that differs from
    it only in the case of its letters) is refused with the
    already-registered error, and the state, the user directory included,
    is the one before. *)
Theorem handleSignUp_duplicate_email (s : AppState) (now : Z)
  (name email password confirmPassword : string) (u : User) :
  In u (users s) ->
  toLowerCase (u_email u) = toLowerCase email \/
  sameUpToCase (u_email u) email ->
  handleSignUp s now name email password confirmPassword
  = (s, DuplicateEmail).
Proof.
  intros Hin H.
  assert (Hlow : toLowerCase (u_email u) = toLowerCase email).
  { destruct H as [H|H]; [exact H | now apply sameUpToCase_toLowerCase]. }
  unfold handleSignUp.
  assert (Ht : emailTaken s email = true) by (apply emailTaken_true; eauto).
  now rewrite Ht.
Qed.

Lemma admin_email_case :
  sameUpToCase "admin@smartspend.com" "Admin@SmartSpend.COM".
Proof.
  repeat (constructor; [(left; reflexivity) || (right; reflexivity)|]).
  constructor.
Defined.

Lemma handleSignUp_duplicate_email_witness :
  handleSignUp initialState 5 "Eve" "Admin@SmartSpend.COM" "pw" "pw"
  = (initialState, DuplicateEmail).
Proof.
  refine (handleSignUp_duplicate_email initialState 5 "Eve"
            "Admin@SmartSpend.COM" "pw" "pw" _ (or_introl eq_refl)
            (or_intror admin_email_case)).
Defined.

(** C8, as the code has it.  With an email nobody has, a confirmation
    equal to the secret and a first workspace in the state, signing up
    succeeds: the new user, with the [Member] role and the id ["u-"]
    followed by the clock reading, is put at the end of the directory and
    of the first workspace's member list, and [activeUserId] is set to that
    id.  Profiles are looked up by id and the first match wins, so it is
    when no earlier user carries that id that the active user is the new
    user and that signing in on that profile with the same secret, straight
    away or after logging out, succeeds and sets [activeUserId] to the new
    user. *)
Theorem handleSignUp_then_handleSignIn (s : AppState) (now : Z)
  (name email password : string) (w0 : Workspace) (rest : list Workspace) :
  emailTaken s email = false ->
  workspaces s = w0 :: rest ->
  let nu := newUser now name email password in
  let s1 := fst (handleSignUp s now name email password password) in
  snd (handleSignUp s now name email password password) = Done /\
  users s1 = users s ++ [nu] /\
  activeUserId s1 = Some (u_id nu) /\
  u_role nu = Member /\
  workspaces s1 = with_w_users w0 (w_users w0 ++ [nu]) :: rest /\
  (exists w, hd_error (workspaces s1) = Some w /\ In nu (w_users w)) /\
  expenses s1 = expenses s /\
  (Forall (fun u => u_id u <> u_id nu) (users s) ->
   activeUser s1 = Some nu /\
   handleSignIn s1 (Some (u_id nu)) password = (s1, Done) /\
   handleSignIn (fst (handleLogout s1)) (Some (u_id nu)) password
   = (s1, Done)).
Proof.
  intros Hfree Hws nu s1. subst s1. unfold handleSignUp.
  rewrite Hfree, String.eqb_refl, Hws. cbn [negb fst snd addToFirst].
  fold nu. cbn [users activeUserId workspaces expenses].
  repeat (split; [reflexivity|]).
  split.
  { eexists. split; [reflexivity|]. cbn [with_w_users w_users].
    apply in_or_app. right. now left. }
  split; [reflexivity|].
  intros Hfresh.
  assert (Hfind : forall p : User -> bool,
             (forall u, p u = String.eqb (u_id u) (u_id nu)) ->
             find p (users s ++ [nu]) = Some nu).
  { intros p Hp. apply find_app_last.
    - eapply Forall_impl; [|exact Hfresh]. intros u Hu. rewrite Hp.
      now apply String.eqb_neq.
    - rewrite Hp. apply String.eqb_refl. }
  split; [|split].
  - unfold activeUser. cbn [users activeUserId]. apply Hfind.
    intros u. reflexivity.
  - unfold handleSignIn. cbn [users]. rewrite (Hfind _ (fun u => eq_refl)).
    cbn [u_password nu newUser opt_eqb]. rewrite String.eqb_refl.
    reflexivity.
  - unfold handleSignIn, handleLogout. cbn [fst with_activeUserId users].
    rewrite (Hfind _ (fun u => eq_refl)).
    cbn [u_password nu newUser opt_eqb]. rewrite String.eqb_refl.
    reflexivity.
Qed.

Lemma bobLoggedOut_reachable : reachable bobLoggedOut.
Proof.
  apply (run_reachable [SignUp 5 "Bob" "bob@x.io" "pw" "pw"; Logout]
                       initialState); [constructor|].
  vm_compute. reflexivity.
Qed.

(** With the id of an earlier user drawn again, the sign-up succeeds, yet
    the active user is the earlier one and the new user cannot sign in
    with her own secret. *)
Lemma handleSignUp_id_drawn_twice :
  reachable bobLoggedOut /\
  emailTaken bobLoggedOut "eve@x.io" = false /\
  offered bobLoggedOut (SignUp 5 "Eve" "eve@x.io" "secret" "secret") = true /\
  snd (handleSignUp bobLoggedOut 5 "Eve" "eve@x.io" "secret" "secret")
  = Done /\
  In eve (users (fst (handleSignUp bobLoggedOut 5 "Eve" "eve@x.io"
                                   "secret" "secret"))) /\
  activeUser (fst (handleSignUp bobLoggedOut 5 "Eve" "eve@x.io"
                                "secret" "secret"))
  = Some bob /\
  snd (handleSignIn (fst (handleSignUp bobLoggedOut 5 "Eve" "eve@x.io"
                                       "secret" "secret"))
                    (Some (u_id eve)) "secret")
  = InvalidCredentials.
Proof.
  split; [exact bobLoggedOut_reachable|].
  repeat split; try reflexivity.
  vm_compute. right. right. left. reflexivity.
Qed.

Lemma handleSignUp_then_handleSignIn_witness :
  emailTaken initialState "bob@x.io" = false /\
  handleSignIn memberState (Some "u-5") "pw" = (memberState, Done).
Proof.
  split; [reflexivity|].
  destruct (handleSignUp_then_handleSignIn initialState 5 "Bob" "bob@x.io"
              "pw" DEFAULT_WORKSPACE [] eq_refl eq_refl)
    as (_ & _ & _ & _ & _ & _ & _ & H).
  refine (proj1 (proj2 (H _))).
  repeat constructor. discriminate.
Defined.

Lemma threeExpenses_distinct : distinct_amounts threeExpenses.
Proof.
  split; repeat constructor; discriminate.
Defined.

Lemma sortBy_reverse_and_stable_witness :
  distinct_amounts threeExpenses /\
  sortBy threeExpenses k_amount desc
  = rev (sortBy threeExpenses k_amount asc) /\
  Forall (fun e => e_amount e <> NaN) tiedExpenses /\
  map e_id (filter (fun e => value_eqb (field k_amount e) (VNum (Num 5)))
                   (sortBy tiedExpenses k_amount desc))
  = ["t1"; "t3"].
Proof.
  assert (H : Forall (fun e => e_amount e <> NaN) tiedExpenses)
    by (repeat constructor; discriminate).
  split; [exact threeExpenses_distinct|]. split.
  - exact (proj1 (proj1 (sortBy_reverse_and_stable threeExpenses)
                        threeExpenses_distinct)).
  - split; [exact H|].
    rewrite (proj2 (sortBy_reverse_and_stable tiedExpenses) k_amount desc
               (VNum (Num 5)) (fun _ => H)).
    reflexivity.
Defined.

Lemma handleDeleteUser_spec_witness :
  handleDeleteUser memberState "u-5" true = (memberState, Ignored) /\
  handleDeleteUser adminSignedIn "u1" true
  = (adminSignedIn, SelfDeletionForbidden) /\
  isAdmin soleMember = true /\
  expenses (fst (handleDeleteUser soleMember "u-5" true))
  = expenses soleMember.
Proof.
  split; [|split; [|split; [reflexivity|]]].
  - exact (proj1 (handleDeleteUser_spec memberState "u-5" true) eq_refl).
  - exact (proj1 (handleDeleteUser_spec adminSignedIn "u1" true) eq_refl).
  - refine (proj2 (proj2 (proj2
              (proj2 (handleDeleteUser_spec soleMember "u-5" true)
                     eq_refl _)))).
    discriminate.
Defined.

(* ================================================================== *)
(** * Further properties *)

(** ** What no handler does *)

Ltac unfold_handlers :=
  unfold handleSignUp, handleSignIn, handleLogout, handleUpdateTheme,
    handleSaveSelfProfile, handleDeleteUser, toggleWorkspaceMember,
    handleAddExpense, deleteExpense, deleteSelectedExpenses, setCurrency,
    setBudget, setActiveView.

Ltac state_fields :=
  cbn [fst snd workspaces users currentWorkspaceId expenses activeUserId
       activeView masterPassword with_workspaces with_users with_expenses
       with_activeUserId with_activeView].

Lemma map_w_frame (f : Workspace -> Workspace) (ws : list Workspace) :
  (forall w, w_id (f w) = w_id w /\ w_name (f w) = w_name w) ->
  map (fun w => (w_id w, w_name w)) (map f ws)
  = map (fun w => (w_id w, w_name w)) ws.
Proof.
  intros Hf. rewrite map_map. apply map_ext. intros w.
  destruct (Hf w) as [-> ->]. reflexivity.
Qed.

Lemma handle_frame (s : AppState) (a : Action) :
  map (fun w => (w_id w, w_name w)) (workspaces (fst (handle s a)))
  = map (fun w => (w_id w, w_name w)) (workspaces s) /\
  currentWorkspaceId (fst (handle s a)) = currentWorkspaceId s /\
  masterPassword (fst (handle s a)) = masterPassword s.
Proof.
  destruct a; cbn [handle]; unfold_handlers; split_handler; state_fields;
    repeat split; try reflexivity;
    try (apply map_w_frame; intros w0; split_handler; split; reflexivity).
  destruct (workspaces s); reflexivity.
Qed.

(** X1. No handler creates, removes, renames or reorders a workspace, switches
    the current workspace or touches the master password: whatever the
    events of a script, the workspaces at the end carry the ids and names
    they had at the start, in the same order, and the current workspace id
    and the master password are the ones of the start. *)
Theorem run_workspace_frame (script : list Action) (s s' : AppState) :
  run s script = Some s' ->
  map (fun w => (w_id w, w_name w)) (workspaces s')
  = map (fun w => (w_id w, w_name w)) (workspaces s) /\
  currentWorkspaceId s' = currentWorkspaceId s /\
  masterPassword s' = masterPassword s.
Proof.
  revert s. induction script as [|a r IH]; cbn [run]; intros s Hrun.
  - injection Hrun as <-. repeat split.
  - destruct (offered s a); [|discriminate].
    destruct (IH _ Hrun) as (Hw & Hc & Hm).
    destruct (handle_frame s a) as (Hw0 & Hc0 & Hm0).
    repeat split; congruence.
Qed.

Lemma activeUser_In s au :
  activeUser s = Some au -> In au (users s) /\ activeUserId s = Some (u_id au).
Proof.
  unfold activeUser. intros H. apply find_some in H. destruct H as [Hin Hid].
  split; [exact Hin | now apply eqb_opt_true].
Qed.

Lemma isAdmin_activeUser s :
  isAdmin s = true ->
  exists au, activeUser s = Some au /\ u_role au = Admin.
Proof.
  unfold isAdmin. destruct (activeUser s) as [au|]; [|discriminate].
  intros H. exists au. split; [reflexivity|]. now destruct (u_role au).
Qed.

(** The users of the directory after an event, traced back to the users
    before it. *)
Lemma handle_users_origin (s : AppState) (a : Action) (u' : User) :
  In u' (users (fst (handle s a))) ->
  (exists u, In u (users s) /\ u_id u = u_id u' /\ u_role u = u_role u') \/
  (exists now name email password,
      a = SignUp now name email password password /\
      u' = newUser now name email password).
Proof.
  destruct a; cbn [handle]; unfold_handlers;
    try (split_handler; state_fields; intros H; left; exists u';
         repeat split; exact H).
  - (* SignUp *)
    destruct (emailTaken s email);
      [state_fields; intros H; left; exists u'; repeat split; exact H|].
    destruct (String.eqb_spec password confirmPassword) as [<-|_]; cbn [negb];
      [|state_fields; intros H; left; exists u'; repeat split; exact H].
    state_fields. intros H. apply in_app_or in H. destruct H as [H|[<-|[]]].
    + left; exists u'; repeat split; exact H.
    + right. now exists now, name, email, password.
  - (* UpdateTheme *)
    destruct (activeUserId s) as [[|c r]|];
      try (state_fields; intros H; left; exists u'; repeat split; exact H).
    state_fields. intros H. apply in_map_iff in H. destruct H as [u [<- Hu]].
    left. exists u. destruct (eqb_opt (u_id u) (Some (String c r)));
      repeat split; exact Hu.
  - (* SaveSelfProfile *)
    destruct (activeUser s) as [au|] eqn:Hau;
      [|state_fields; intros H; left; exists u'; repeat split; exact H].
    state_fields. intros H. apply in_map_iff in H. destruct H as [u [<- Hu]].
    left. destruct (String.eqb (u_id u) (u_id au)).
    + exists au. repeat split. now apply activeUser_In.
    + exists u. repeat split. exact Hu.
  - (* DeleteUser *)
    split_handler; state_fields; intros H;
      try (left; exists u'; repeat split; exact H).
    apply filter_In in H. left; exists u'; repeat split; apply H.
Qed.

(** X2. No event makes an administrator: an [Admin] record of the directory
    after an event carries the id of an [Admin] record that was there
    before it.  Signing up creates a [Member], and editing a profile keeps
    the role. *)
Theorem handle_no_new_admin (s : AppState) (a : Action) (u' : User) :
  In u' (users (fst (handle s a))) -> u_role u' = Admin ->
  exists u, In u (users s) /\ u_id u = u_id u' /\ u_role u = Admin.
Proof.
  intros Hin Hrole. destruct (handle_users_origin s a u' Hin) as [H|H].
  - destruct H as (u & Hu & Hid & Hr). exists u. repeat split; congruence.
  - destruct H as (now & name & email & password & _ & ->). discriminate.
Qed.

(** ** Invariants of the reachable states *)

Lemma reachable_ind_handle (P : AppState -> Prop) :
  P initialState ->
  (forall s a, P s -> P (fst (handle s a))) ->
  forall s, reachable s -> P s.
Proof.
  intros Hinit Hstep s Hs. induction Hs as [|s a Hs IH Ho]; auto.
Qed.

Lemma reachable_current (s : AppState) :
  reachable s ->
  singleWorkspace s /\
  exists cw, currentWorkspace s = Some cw /\ workspaces s = [cw] /\
             w_id cw = "w1".
Proof.
  intros Hs.
  assert (H1 : singleWorkspace s).
  { revert s Hs. apply reachable_ind_handle; [split; reflexivity|].
    intros s a [Hw Hc]. destruct (handle_frame s a) as (Ew & Ec & _).
    split; congruence. }
  assert (H2 : exists cw, currentWorkspace s = Some cw /\ workspaces s = [cw]
                          /\ w_id cw = "w1").
  { destruct H1 as [Hw Hc]. unfold currentWorkspace. rewrite Hc.
    destruct (workspaces s) as [|cw [|w r]]; try discriminate.
    cbn in Hw. injection Hw as Hid _. exists cw. cbn. rewrite Hid. cbn. auto. }
  split; [exact H1 | exact H2].
Qed.

(** X3. There is never more than the seeded workspace, so a current workspace
    always exists and no handler ever reads a property of [undefined]. *)
Theorem reachable_singleWorkspace (s : AppState) :
  reachable s ->
  singleWorkspace s /\
  (exists cw, currentWorkspace s = Some cw /\ workspaces s = [cw] /\
              w_id cw = "w1") /\
  (forall a, snd (handle s a) <> TypeError) /\
  (forall e, canModifyTransaction s e <> None).
Proof.
  intros Hs. destruct (reachable_current s Hs) as [H1 H2].
  split; [exact H1|]. split; [exact H2|].
  destruct H2 as (cw & Hcw & _ & _).
  assert (H3 : forall e, canModifyTransaction s e <> None).
  { intros e. unfold canModifyTransaction. rewrite Hcw.
    destruct (activeUser s); discriminate. }
  split; [|exact H3].
  intros a. destruct a; cbn [handle]; unfold_handlers; rewrite ?Hcw;
    try (split_handler; cbn [snd]; discriminate).
  specialize (H3 expense).
  destruct (canModifyTransaction s expense) as [[|]|]; [| |contradiction];
    split_handler; discriminate.
Qed.

Lemma in_addToFirst (nu : User) (ws : list Workspace) w' m :
  In w' (addToFirst nu ws) -> In m (w_users w') ->
  m = nu \/ exists w, In w ws /\ In m (w_users w).
Proof.
  destruct ws as [|w r]; cbn [addToFirst]; [contradiction|].
  intros [<-|Hw] Hm.
  - cbn [with_w_users w_users] in Hm. apply in_app_or in Hm.
    destruct Hm as [Hm|[<-|[]]]; [right|left; reflexivity].
    exists w. split; [now left | exact Hm].
  - right. exists w'. split; [now right | exact Hm].
Qed.

Lemma membersKnown_step (s : AppState) (a : Action) :
  membersKnown s -> membersKnown (fst (handle s a)).
Proof.
  intros Hk.
  destruct a; cbn [handle]; unfold_handlers;
    try (split_handler; unfold membersKnown in *; state_fields; exact Hk).
  - (* SignUp *)
    destruct (emailTaken s email); [exact Hk|].
    destruct (negb _); [exact Hk|].
    unfold membersKnown. state_fields. intros w' m Hw Hm.
    destruct (in_addToFirst _ _ _ _ Hw Hm) as [->|(w & Hw0 & Hm0)].
    + eexists. split; [apply in_or_app; right; left; reflexivity|reflexivity].
    + destruct (Hk w m Hw0 Hm0) as (u & Hu & Hid).
      exists u. split; [apply in_or_app; now left | exact Hid].
  - (* UpdateTheme *)
    destruct (activeUserId s) as [[|c r]|]; try exact Hk.
    unfold membersKnown. state_fields. intros w m Hw Hm.
    destruct (Hk w m Hw Hm) as (u & Hu & Hid).
    eexists. split; [apply in_map; exact Hu|].
    now destruct (eqb_opt (u_id u) (Some (String c r))).
  - (* SaveSelfProfile *)
    destruct (activeUser s) as [au|]; [|exact Hk].
    unfold membersKnown. state_fields. intros w' m' Hw Hm.
    apply in_map_iff in Hw. destruct Hw as (w & <- & Hw).
    cbn [with_w_users w_users] in Hm.
    apply in_map_iff in Hm. destruct Hm as (m & <- & Hm).
    destruct (Hk w m Hw Hm) as (u & Hu & Hid).
    eexists. split; [apply in_map; exact Hu|]. cbv beta. rewrite Hid.
    now destruct (String.eqb (u_id m) (u_id au)).
  - (* DeleteUser *)
    destruct (negb (isAdmin s)); [exact Hk|].
    destruct (eqb_opt userId (activeUserId s)); [exact Hk|].
    destruct confirmed; [|exact Hk].
    unfold membersKnown. state_fields. intros w' m Hw Hm.
    apply in_map_iff in Hw. destruct Hw as (w & <- & Hw).
    cbn [with_w_users w_users] in Hm. apply filter_In in Hm.
    destruct Hm as [Hm Hkeep].
    destruct (Hk w m Hw Hm) as (u & Hu & Hid).
    exists u. split; [|exact Hid]. apply filter_In. split; [exact Hu|].
    now rewrite Hid.
  - (* ToggleWorkspaceMember *)
    destruct (negb (isAdmin s)); [exact Hk|].
    destruct (find _ (users s)) as [user|] eqn:Huser; [|exact Hk].
    destruct (find _ (workspaces s)) as [ws|] eqn:Hws; [|exact Hk].
    match goal with |- context [(length ?l =? 0)%nat] =>
      destruct (length l =? 0)%nat; [exact Hk|] end.
    unfold membersKnown. state_fields. intros w' m Hw Hm.
    apply in_map_iff in Hw. destruct Hw as (w & <- & Hw).
    destruct (String.eqb (w_id w) (currentWorkspaceId s));
      [|exact (Hk w m Hw Hm)].
    cbn [with_w_users w_users] in Hm.
    apply find_some in Huser, Hws. destruct Huser as [Huser _].
    destruct Hws as [Hws _].
    destruct (existsb _ (w_users ws)).
    + apply filter_In in Hm. exact (Hk ws m Hws (proj1 Hm)).
    + apply in_app_or in Hm. destruct Hm as [Hm|[Hm|[]]].
      * exact (Hk ws m Hws Hm).
      * subst m. exists user. split; [exact Huser | reflexivity].
  - (* SetCurrency *)
    destruct (negb (isAdmin s)); [exact Hk|].
    destruct (currentWorkspace s) as [cw|]; [|exact Hk].
    unfold membersKnown. state_fields. intros w' m Hw Hm.
    apply in_map_iff in Hw. destruct Hw as (w & <- & Hw).
    destruct (String.eqb (w_id w) (w_id cw)); exact (Hk w m Hw Hm).
  - (* SetBudget *)
    destruct (negb (isAdmin s)); [exact Hk|].
    destruct (currentWorkspace s) as [cw|]; [|exact Hk].
    unfold membersKnown. state_fields. intros w' m Hw Hm.
    apply in_map_iff in Hw. destruct Hw as (w & <- & Hw).
    destruct (String.eqb (w_id w) (w_id cw)); exact (Hk w m Hw Hm).
Qed.

Lemma activeKnown_step (s : AppState) (a : Action) :
  activeKnown s -> activeKnown (fst (handle s a)).
Proof.
  intros Hk.
  destruct a; cbn [handle]; unfold_handlers;
    try (split_handler; unfold activeKnown in *; state_fields; exact Hk).
  - (* SignUp *)
    destruct (emailTaken s email); [exact Hk|].
    destruct (negb _); [exact Hk|].
    unfold activeKnown. state_fields. intros uid H. injection H as <-.
    eexists. split; [apply in_or_app; right; left; reflexivity|reflexivity].
  - (* SignIn *)
    destruct loginStep as [userId|]; [|exact Hk].
    destruct (find _ (users s)) as [user|] eqn:Hu; [|exact Hk].
    destruct (opt_eqb _ _); [|exact Hk].
    unfold activeKnown. state_fields. intros uid H. injection H as <-.
    apply find_some in Hu. exists user. split; [apply Hu | reflexivity].
  - (* Logout *)
    unfold activeKnown. state_fields. discriminate.
  - (* UpdateTheme *)
    destruct (activeUserId s) as [[|c r]|] eqn:Ha; try exact Hk.
    unfold activeKnown. state_fields. rewrite Ha. intros uid H.
    rewrite <- Ha in H. destruct (Hk uid H) as (u & Hu & Hid).
    eexists. split; [apply in_map; exact Hu|].
    now destruct (eqb_opt (u_id u) (Some (String c r))).
  - (* SaveSelfProfile *)
    destruct (activeUser s) as [au|]; [|exact Hk].
    unfold activeKnown. state_fields. intros uid H.
    destruct (Hk uid H) as (u & Hu & Hid).
    eexists. split; [apply in_map; exact Hu|]. cbv beta.
    destruct (String.eqb_spec (u_id u) (u_id au)) as [E|E];
      [cbn; congruence | exact Hid].
  - (* DeleteUser *)
    destruct (negb (isAdmin s)); [exact Hk|].
    destruct (eqb_opt userId (activeUserId s)) eqn:Hne; [exact Hk|].
    destruct confirmed; [|exact Hk].
    unfold activeKnown. state_fields. intros uid H.
    destruct (Hk uid H) as (u & Hu & Hid).
    exists u. split; [|exact Hid]. apply filter_In. split; [exact Hu|].
    apply negb_true_iff, String.eqb_neq. intros E.
    apply eqb_opt_false in Hne. congruence.
Qed.

(** X4. In every reachable state the members of the workspaces and the active
    id all point into the directory: no roster entry and no session
    outlives its user. *)
Theorem reachable_membersKnown_activeKnown (s : AppState) :
  reachable s ->
  membersKnown s /\ activeKnown s /\
  (activeUserId s <> None -> activeUser s <> None).
Proof.
  intros Hs.
  assert (Hm : membersKnown s).
  { apply (reachable_ind_handle membersKnown);
      [|apply membersKnown_step|exact Hs].
    intros w m [<-|[]] Hm. exists m. split; [exact Hm | reflexivity]. }
  assert (Ha : activeKnown s).
  { apply (reachable_ind_handle activeKnown);
      [|apply activeKnown_step|exact Hs].
    intros uid H. discriminate. }
  split; [exact Hm|]. split; [exact Ha|].
  intros Hsome Hnone. destruct (activeUserId s) as [uid|] eqn:E; [|congruence].
  destruct (Ha uid E) as (u & Hu & Hid).
  unfold activeUser in Hnone. rewrite E in Hnone.
  apply (find_none _ _ Hnone) in Hu. cbn in Hu.
  rewrite Hid, String.eqb_refl in Hu. discriminate.
Qed.

Lemma newUserId_not_seeded now : newUserId now <> "u1".
Proof. unfold newUserId. cbn. discriminate. Qed.

Lemma rolesFixed_step (s : AppState) (a : Action) :
  rolesFixed s -> rolesFixed (fst (handle s a)).
Proof.
  intros [[u1 [Hu1 Hid1]] Hroles]. split.
  - (* the seeded administrator stays *)
    destruct a; cbn [handle]; unfold_handlers;
      try (split_handler; state_fields; exists u1; split; assumption).
    + (* SignUp *)
      split_handler; state_fields; exists u1;
        (split; [try apply in_or_app; auto | exact Hid1]).
    + (* UpdateTheme *)
      destruct (activeUserId s) as [[|c r]|];
        try (exists u1; split; assumption).
      state_fields. eexists. split; [apply in_map; exact Hu1|].
      now destruct (eqb_opt (u_id u1) (Some (String c r))).
    + (* SaveSelfProfile *)
      destruct (activeUser s) as [au|]; [|exists u1; split; assumption].
      state_fields. eexists. split; [apply in_map; exact Hu1|]. cbv beta.
      destruct (String.eqb_spec (u_id u1) (u_id au)) as [E|E];
        [cbn; congruence | exact Hid1].
    + (* DeleteUser *)
      destruct (isAdmin s) eqn:Hadm; cbn [negb];
        [|exists u1; split; assumption].
      destruct (eqb_opt userId (activeUserId s)) eqn:Hne;
        [exists u1; split; assumption|].
      destruct confirmed; [|exists u1; split; assumption].
      state_fields. exists u1. split; [|exact Hid1].
      apply filter_In. split; [exact Hu1|].
      apply negb_true_iff, String.eqb_neq. intros E.
      destruct (isAdmin_activeUser s Hadm) as (au & Hau & Hrole).
      apply activeUser_In in Hau. destruct Hau as [Hin Hact].
      apply (Hroles au Hin) in Hrole. apply eqb_opt_false in Hne.
      congruence.
  - (* the administrators are still the records with that id *)
    intros u' Hu'. destruct (handle_users_origin s a u' Hu') as [H|H].
    + destruct H as (u & Hu & Hid & Hr). rewrite <- Hid, <- Hr.
      now apply Hroles.
    + destruct H as (now & name & email & password & _ & ->).
      cbn [newUser u_role u_id]. split; [discriminate|].
      intros E. now apply newUserId_not_seeded in E.
Qed.

(** X5. In every reachable state the seeded administrator is in the directory
    and the administrators are exactly the records with its id: nobody
    else ever holds the role, so whoever passes the administrator gate is
    signed in as ["u1"]. *)
Theorem reachable_rolesFixed (s : AppState) :
  reachable s ->
  rolesFixed s /\ (isAdmin s = true -> activeUserId s = Some "u1").
Proof.
  intros Hs.
  assert (Hr : rolesFixed s).
  { apply (reachable_ind_handle rolesFixed);
      [|apply rolesFixed_step|exact Hs].
    split; [eexists; split; [left; reflexivity|reflexivity]|].
    intros u [<-|[]]. split; reflexivity. }
  split; [exact Hr|]. intros Hadm.
  destruct (isAdmin_activeUser s Hadm) as (au & Hau & Hrole).
  apply activeUser_In in Hau. destruct Hau as [Hin Hact].
  apply (proj2 Hr au Hin) in Hrole. congruence.
Qed.

(** The expenses of the ledger after an event, traced back: an expense was
    there before, up to the two copied owner fields, or it is the one the
    event adds, filed under the current workspace. *)
Lemma handle_expenses_origin (s : AppState) (a : Action) (e' : Expense) :
  In e' (expenses (fst (handle s a))) ->
  (exists e, In e (expenses s) /\ e_id e = e_id e' /\
             e_workspaceId e = e_workspaceId e' /\
             e_userId e = e_userId e' /\ e_amount e = e_amount e') \/
  (exists cw, currentWorkspace s = Some cw /\ e_workspaceId e' = w_id cw).
Proof.
  destruct a; cbn [handle]; unfold_handlers;
    try (split_handler; state_fields; intros H; left; exists e';
         repeat split; exact H).
  - (* SaveSelfProfile *)
    destruct (activeUser s) as [au|];
      [|intros H; left; exists e'; repeat split; exact H].
    state_fields. intros H. apply in_map_iff in H. destruct H as (e & <- & He).
    left. exists e. split; [exact He|].
    destruct (String.eqb (e_userId e) (u_id au)); repeat split.
  - (* AddExpense *)
    destruct (negb (truthy description) || negb (truthy amount));
      [intros H; left; exists e'; repeat split; exact H|].
    destruct (activeUser s) as [au|];
      [|intros H; left; exists e'; repeat split; exact H].
    destruct (currentWorkspace s) as [cw|] eqn:Hcw;
      [|intros H; left; exists e'; repeat split; exact H].
    state_fields. intros [<-|H].
    + right. exists cw. split; reflexivity.
    + left; exists e'; repeat split; exact H.
  - (* DeleteExpense *)
    destruct (canModifyTransaction s expense) as [[|]|];
      try (intros H; left; exists e'; repeat split; exact H).
    destruct confirmed; state_fields; intros H;
      [apply filter_In in H; destruct H as [H _]|];
      left; exists e'; repeat split; exact H.
  - (* DeleteSelectedExpenses *)
    destruct confirmed; state_fields; intros H;
      [apply filter_In in H; destruct H as [H _]|];
      left; exists e'; repeat split; exact H.
Qed.

Lemma expensesFiled_step (s : AppState) (a : Action) :
  expensesFiled s -> expensesFiled (fst (handle s a)).
Proof.
  intros Hf e' He'.
  assert (Hids : forall w, In w (workspaces s) ->
            exists w', In w' (workspaces (fst (handle s a))) /\
                       w_id w' = w_id w).
  { intros w Hw. destruct (handle_frame s a) as (Ew & _ & _).
    apply (in_map (fun w => (w_id w, w_name w))) in Hw. rewrite <- Ew in Hw.
    apply in_map_iff in Hw. destruct Hw as (w' & E & Hw').
    exists w'. split; [exact Hw'|]. now injection E. }
  destruct (handle_expenses_origin s a e' He') as [H|H].
  - destruct H as (e & He & _ & Hw & _). rewrite <- Hw.
    destruct (Hf e He) as (w & Hin & Hid).
    destruct (Hids w Hin) as (w' & Hin' & Hid'). exists w'.
    split; [exact Hin' | congruence].
  - destruct H as (cw & Hcw & ->). apply currentWorkspace_In in Hcw.
    exact (Hids cw Hcw).
Qed.

(** X6. In every reachable state every expense is filed under a workspace of
    the state, which is the current one: the view of the current workspace
    shows the whole ledger. *)
Theorem reachable_expensesFiled (s : AppState) :
  reachable s ->
  expensesFiled s /\ workspaceExpenses s = Some (expenses s).
Proof.
  intros Hs.
  assert (Hf : expensesFiled s).
  { apply (reachable_ind_handle expensesFiled);
      [|apply expensesFiled_step|exact Hs].
    intros e []. }
  split; [exact Hf|].
  destruct (reachable_current s Hs) as (_ & cw & Hcw & Hws & Hid).
  unfold workspaceExpenses, workspaceExpensesOf. rewrite Hcw. cbn. f_equal.
  apply forallb_filter_id. apply forallb_forall. intros e He.
  destruct (Hf e He) as (w & Hw & Hwid). rewrite Hws in Hw.
  destruct Hw as [<-|[]]. rewrite <- Hwid. apply String.eqb_refl.
Qed.

(** ** Sessions and roles *)

(** X7. With nobody signed in, every event that needs a user leaves the
    state exactly as it is; in particular nothing of the kind can happen
    after a logout until somebody signs in. *)
Theorem signed_out_idle (s : AppState) (a : Action) :
  activeUserId s = None -> needsSession a = true ->
  fst (handle s a) = s /\
  fst (handle (fst (handleLogout s)) a) = fst (handleLogout s).
Proof.
  assert (H : forall t, activeUserId t = None -> needsSession a = true ->
                        fst (handle t a) = t).
  { intros t Hout Ha.
    assert (Hau : activeUser t = None).
    { unfold activeUser. rewrite Hout. cbn [eqb_opt].
      induction (users t) as [|u r IH]; [reflexivity | exact IH]. }
    assert (Hadm : isAdmin t = false) by (unfold isAdmin; now rewrite Hau).
    destruct a; try discriminate Ha; cbn [handle]; unfold_handlers;
      unfold canModifyTransaction; rewrite ?Hout, ?Hau, ?Hadm; cbn [negb fst];
      try reflexivity.
    now destruct (negb (truthy description) || negb (truthy amount)). }
  intros Hout Ha. split; [now apply H|]. now apply H.
Qed.

Lemma map_governed_w (f : Workspace -> Workspace) (ws : list Workspace) :
  (forall w, w_currency (f w) = w_currency w /\ w_budget (f w) = w_budget w /\
             map u_id (w_users (f w)) = map u_id (w_users w)) ->
  map (fun w => (w_currency w, w_budget w, map u_id (w_users w))) (map f ws)
  = map (fun w => (w_currency w, w_budget w, map u_id (w_users w))) ws.
Proof.
  intros Hf. rewrite map_map. apply map_ext. intros w.
  destruct (Hf w) as (-> & -> & ->). reflexivity.
Qed.

Lemma map_same_ids (f : User -> User) (us : list User) :
  (forall u, u_id (f u) = u_id u) -> map u_id (map f us) = map u_id us.
Proof.
  intros Hf. rewrite map_map. apply map_ext. exact Hf.
Qed.

(** X8. Without the administrator role nothing that is governed moves: short
    of a new sign-up, no event changes a currency, a budget, the ids on a
    roster or the ids of the directory.  Deleting a user and toggling a
    member return at once, and the currency and budget inputs are not
    there to be typed in. *)
Theorem member_cannot_govern (s : AppState) (a : Action) :
  isAdmin s = false ->
  (forall now n e p c, a <> SignUp now n e p c) ->
  governed (fst (handle s a)) = governed s /\
  (forall userId confirmed text,
      handleDeleteUser s userId confirmed = (s, Ignored) /\
      toggleWorkspaceMember s userId = (s, Ignored) /\
      setCurrency s text = (s, Ignored) /\
      setBudget s text = (s, Ignored)).
Proof.
  intros Hadm Hnot. split.
  - unfold governed.
    destruct a; cbn [handle]; unfold_handlers; rewrite ?Hadm; cbn [negb];
      try (split_handler; state_fields; reflexivity).
    + exfalso. eapply Hnot. reflexivity.
    + (* UpdateTheme *)
      destruct (activeUserId s) as [[|c r]|]; try reflexivity.
      state_fields. f_equal. apply map_same_ids. intros u.
      now destruct (eqb_opt (u_id u) (Some (String c r))).
    + (* SaveSelfProfile *)
      destruct (activeUser s) as [au|]; [|reflexivity].
      state_fields. f_equal.
      * apply map_governed_w. intros w. cbn. repeat split.
        apply map_same_ids. intros u.
        destruct (String.eqb_spec (u_id u) (u_id au)) as [E|E];
          [cbn; congruence | reflexivity].
      * apply map_same_ids. intros u.
        destruct (String.eqb_spec (u_id u) (u_id au)) as [E|E];
          [cbn; congruence | reflexivity].
  - intros userId confirmed text. unfold_handlers. rewrite Hadm. cbn.
    repeat split.
Qed.

(** ** Signing in, signing up, profiles *)

(** X9. Signing in on a profile succeeds exactly when the first record of the
    directory with that id stores the typed password; a record with no
    password never lets anybody in.  Success changes the active id and
    nothing else; any failure shows the one error and changes nothing. *)
Theorem handleSignIn_outcomes (s : AppState) (userId password : string) :
  (snd (handleSignIn s (Some userId) password) = Done <->
   exists u, find (fun u => String.eqb (u_id u) userId) (users s) = Some u /\
             u_password u = Some password) /\
  (snd (handleSignIn s (Some userId) password) = Done ->
   fst (handleSignIn s (Some userId) password)
   = with_activeUserId s (Some userId)) /\
  (snd (handleSignIn s (Some userId) password) <> Done ->
   handleSignIn s (Some userId) password = (s, InvalidCredentials)).
Proof.
  unfold handleSignIn.
  destruct (find _ (users s)) as [u|] eqn:Hu.
  - pose proof (find_some _ _ Hu) as [_ Hid]. apply String.eqb_eq in Hid.
    destruct (u_password u) as [p|] eqn:Hp; cbn [opt_eqb].
    + destruct (String.eqb_spec p password) as [->|Hne]; cbn [fst snd].
      * split; [|split; [intros _; now rewrite Hid | congruence]].
        split; [intros _; now exists u | reflexivity].
      * split; [|split; [discriminate | reflexivity]].
        split; [discriminate|]. intros (u' & E & Hp'). congruence.
    + cbn [fst snd]. split; [|split; [discriminate | reflexivity]].
      split; [discriminate|]. intros (u' & E & Hp'). congruence.
  - cbn [fst snd]. split; [|split; [discriminate | reflexivity]].
    split; [discriminate|]. intros (u' & E & _). discriminate.
Qed.

(** X10. Signing up goes through exactly when the email is free and the two
    passwords agree.  A taken email is reported first, whatever the
    passwords; a failed sign-up changes nothing. *)
Theorem handleSignUp_outcomes (s : AppState) (now : Z)
  (name email password confirmPassword : string) :
  (snd (handleSignUp s now name email password confirmPassword) = Done <->
   emailTaken s email = false /\ password = confirmPassword) /\
  (emailTaken s email = true ->
   handleSignUp s now name email password confirmPassword
   = (s, DuplicateEmail)) /\
  (emailTaken s email = false -> password <> confirmPassword ->
   handleSignUp s now name email password confirmPassword
   = (s, PasswordMismatch)).
Proof.
  unfold handleSignUp. destruct (emailTaken s email).
  - split; [|split; [reflexivity | discriminate]].
    split; [discriminate | intros [? _]; discriminate].
  - destruct (String.eqb_spec password confirmPassword) as [E|E];
      cbn [negb snd].
    + split; [|split; [discriminate | contradiction]].
      split; [now split | reflexivity].
    + split; [|split; [discriminate | reflexivity]].
      split; [discriminate | intros [_ ?]; contradiction].
Qed.

(** X11. Editing a profile checks nothing about the new email: the active user
    can take the email of any other user, and the directory then holds two
    users of different ids with one email, the very thing a sign-up
    refuses to create. *)
Theorem handleSaveSelfProfile_shares_email (s : AppState) (au u : User)
  (name avatar : string) :
  activeUser s = Some au -> In u (users s) -> u_id u <> u_id au ->
  let s' := fst (handleSaveSelfProfile s name (u_email u) avatar) in
  snd (handleSaveSelfProfile s name (u_email u) avatar) = Done /\
  In u (users s') /\
  In (with_profile au name (u_email u) avatar) (users s') /\
  forall now n p c,
    handleSignUp s' now n (u_email u) p c = (s', DuplicateEmail).
Proof.
  intros Hau Hu Hne s'. subst s'. unfold handleSaveSelfProfile. rewrite Hau.
  cbn [fst snd].
  set (upd := map _ (users s)).
  assert (H1 : In u upd).
  { apply in_map_iff. exists u. split; [|exact Hu].
    now destruct (String.eqb_spec (u_id u) (u_id au)). }
  assert (H2 : In (with_profile au name (u_email u) avatar) upd).
  { apply in_map_iff. exists au. rewrite String.eqb_refl.
    split; [reflexivity | now apply activeUser_In]. }
  split; [reflexivity|]. split; [exact H1|]. split; [exact H2|].
  intros now n p c. unfold handleSignUp.
  match goal with |- context [emailTaken ?t ?e] =>
    assert (Ht : emailTaken t e = true) end.
  { apply emailTaken_true. exists u. split; [exact H1 | reflexivity]. }
  now rewrite Ht.
Qed.

(** X12. A theme change repaints the directory records with the active id and
    nothing else: every other field of those records, every other record,
    the workspaces with their roster copies of the user, and the ledger
    stay as they were.  An empty active id counts as no user. *)
Theorem handleUpdateTheme_frame (s : AppState) (color : string) :
  (activeUserId s = None \/ activeUserId s = Some "" ->
   handleUpdateTheme s color = (s, Ignored)) /\
  (forall uid, activeUserId s = Some uid -> uid <> "" ->
     snd (handleUpdateTheme s color) = Done /\
     Forall2 (fun u u' =>
                (u_id u = uid -> u' = with_themeColor u color) /\
                (u_id u <> uid -> u' = u))
             (users s) (users (fst (handleUpdateTheme s color))) /\
     with_users (fst (handleUpdateTheme s color)) (users s) = s).
Proof.
  unfold handleUpdateTheme. split.
  - intros [-> | ->]; reflexivity.
  - intros uid Ha Hne. rewrite Ha. destruct uid as [|c r]; [congruence|].
    cbn [fst snd]. split; [reflexivity|]. split; [|destruct s; reflexivity].
    cbn [users with_users]. apply Forall2_map_self. intros u _.
    cbn [eqb_opt].
    destruct (String.eqb_spec (u_id u) (String c r)); split; auto;
      contradiction.
Qed.

(** ** Revealing a password *)

(** X13. A stored password is shown exactly when the answer typed at the prompt
    is the master password, character for character, and the directory
    holds the user; what is shown is the first matching record's name and
    password.  The handler itself asks neither for a session nor for a
    role. *)
Theorem handleRevealPassword_exact (s : AppState) (userId : string)
  (input : option string) (name : string) (password : option string) :
  handleRevealPassword s userId input = AccessGranted name password <->
  exists typed u,
    input = Some typed /\ masterPassword s = Some typed /\
    find (fun u => String.eqb (u_id u) userId) (users s) = Some u /\
    name = u_name u /\ password = u_password u.
Proof.
  unfold handleRevealPassword. split.
  - destruct input as [typed|]; [|discriminate].
    destruct (eqb_opt typed (masterPassword s)) eqn:E; [|discriminate].
    apply eqb_opt_true in E.
    destruct (find _ (users s)) as [u|]; [|discriminate].
    intros H. injection H as <- <-. now exists typed, u.
  - intros (typed & u & -> & Hm & Hu & -> & ->).
    rewrite (proj2 (eqb_opt_true typed _) Hm), Hu. reflexivity.
Qed.

(** ** The transaction table *)

Lemma ids_include_In ids x : ids_include ids x = true <-> In x ids.
Proof.
  unfold ids_include. rewrite existsb_exists. split.
  - intros (y & Hy & E). apply String.eqb_eq in E. now subst.
  - intros H. exists x. split; [exact H | apply String.eqb_refl].
Qed.

Lemma ids_include_filter ids id x :
  ids_include (filter (fun eid => negb (String.eqb eid id)) ids) x
  = negb (String.eqb x id) && ids_include ids x.
Proof.
  apply eq_true_iff_eq. rewrite andb_true_iff, negb_true_iff, String.eqb_neq.
  rewrite !ids_include_In, filter_In, negb_true_iff, String.eqb_neq. tauto.
Qed.

(** X14. Ticking a row flips that row and no other: afterwards an id is
    selected exactly when it was, except the ticked one, which changes
    sides.  Ticking twice a row that was not selected gives back the very
    same selection. *)
Theorem toggleExpenseSelection_flips (prev : list string) (id : string) :
  (forall x, ids_include (toggleExpenseSelection prev id) x
             = if String.eqb x id then negb (ids_include prev id)
               else ids_include prev x) /\
  (ids_include prev id = false ->
   toggleExpenseSelection (toggleExpenseSelection prev id) id = prev).
Proof.
  split.
  - intros x. unfold toggleExpenseSelection.
    destruct (ids_include prev id) eqn:Hin.
    + rewrite ids_include_filter.
      destruct (String.eqb x id); reflexivity.
    + unfold ids_include in *. rewrite existsb_app. cbn [existsb].
      destruct (String.eqb_spec x id) as [->|Hne].
      * rewrite Hin. reflexivity.
      * now rewrite !orb_false_r.
  - intros Hout. unfold toggleExpenseSelection at 2. rewrite Hout.
    unfold toggleExpenseSelection.
    assert (Hin : ids_include (prev ++ [id]) id = true).
    { apply ids_include_In, in_or_app. right. now left. }
    rewrite Hin, filter_app. cbn [filter]. rewrite String.eqb_refl.
    cbn [negb]. rewrite app_nil_r.
    apply forallb_filter_id. apply forallb_forall. intros y Hy.
    apply negb_true_iff, String.eqb_neq. intros ->.
    apply ids_include_In in Hy. congruence.
Qed.

(** X15. The header checkbox compares two counts and nothing else.  When they
    differ it selects every row of the table, a second press then clears
    the selection, and a confirmed bulk delete in between removes from the
    ledger exactly the expenses carrying the id of a row of the table.
    When they agree, whatever the ids selected, the press selects
    nothing. *)
Theorem toggleAllExpenses_then_delete (s : AppState)
  (selectedExpenseIds : list string) (filtered : list Expense) :
  (length selectedExpenseIds = length filtered ->
   toggleAllExpenses selectedExpenseIds filtered = []) /\
  (length selectedExpenseIds <> length filtered ->
   let all := toggleAllExpenses selectedExpenseIds filtered in
   all = map e_id filtered /\
   toggleAllExpenses all filtered = [] /\
   forall e, In e (expenses (fst (deleteSelectedExpenses s all true))) <->
             In e (expenses s) /\
             ~ exists row, e_id row = e_id e /\ In row filtered).
Proof.
  unfold toggleAllExpenses. split.
  - intros ->. now rewrite Nat.eqb_refl.
  - intros Hne. apply Nat.eqb_neq in Hne. rewrite Hne. cbv zeta.
    split; [reflexivity|]. split; [now rewrite length_map, Nat.eqb_refl|].
    intros e. cbn [deleteSelectedExpenses fst expenses with_expenses].
    rewrite filter_In, negb_true_iff.
    rewrite <- not_true_iff_false, ids_include_In, in_map_iff. reflexivity.
Qed.

Lemma ExpenseKey_eqb_eq a b : ExpenseKey_eqb a b = true <-> a = b.
Proof. destruct a, b; cbn; split; congruence. Qed.

(** X16. A column header sorts upwards on the first press and flips the
    direction on each further press: on the column already sorted, two
    presses give back the configuration one started from; on another
    column, the first press sorts it upwards and the second downwards. *)
Theorem requestSort_presses (sortConfig : SortConfig) (k : ExpenseKey) :
  (key sortConfig = k ->
   requestSort (requestSort sortConfig k) k = sortConfig) /\
  (key sortConfig <> k ->
   requestSort sortConfig k = mkSortConfig k asc /\
   requestSort (requestSort sortConfig k) k = mkSortConfig k desc).
Proof.
  assert (Hrefl : ExpenseKey_eqb k k = true) by now apply ExpenseKey_eqb_eq.
  destruct sortConfig as [k0 d]. unfold requestSort. cbn [key direction].
  split.
  - intros ->. rewrite Hrefl.
    destruct d; cbn [key direction Direction_eqb andb]; rewrite ?Hrefl;
      reflexivity.
  - intros Hne. destruct (ExpenseKey_eqb k0 k) eqn:E.
    + apply ExpenseKey_eqb_eq in E. contradiction.
    + cbn [key direction Direction_eqb andb]. rewrite Hrefl.
      split; reflexivity.
Qed.

Lemma sort_insert_Permutation {A : Type} (cmp : A -> A -> Z) x l :
  Permutation (sort_insert cmp x l) (x :: l).
Proof.
  induction l as [|y r IH]; cbn [sort_insert]; [reflexivity|].
  destruct (0 <? cmp x y); [|reflexivity].
  rewrite IH. apply perm_swap.
Qed.

Lemma array_sort_Permutation {A : Type} (cmp : A -> A -> Z) l :
  Permutation (array_sort cmp l) l.
Proof.
  induction l as [|x r IH]; cbn [array_sort fold_right]; [reflexivity|].
  fold (array_sort cmp r). rewrite sort_insert_Permutation. now constructor.
Qed.

Lemma includes_empty t : includes t "" = true.
Proof. destruct t; reflexivity. Qed.

(** X17. The table shows the expenses of the current workspace that pass the
    search and the category filter, each as many times as the ledger holds
    it, and nothing else: sorting only reorders.  With an empty search and
    the category ['All'] it shows the whole workspace. *)
Theorem filteredExpenses_content (s : AppState) (cw : Workspace)
  (searchTerm categoryFilter : string) (sortConfig : SortConfig) :
  currentWorkspace s = Some cw ->
  exists rows,
    filteredExpenses s searchTerm categoryFilter sortConfig = Some rows /\
    Permutation rows
      (filter (fun e => matchesSearch searchTerm e &&
                        matchesCategory categoryFilter e)
              (workspaceExpensesOf cw s)) /\
    (forall e, In e rows <->
               In e (expenses s) /\ e_workspaceId e = w_id cw /\
               matchesSearch searchTerm e = true /\
               matchesCategory categoryFilter e = true) /\
    (searchTerm = "" -> categoryFilter = "All" ->
     Permutation rows (workspaceExpensesOf cw s)).
Proof.
  intros Hcw. unfold filteredExpenses, workspaceExpenses. rewrite Hcw.
  cbn [option_map]. eexists. split; [reflexivity|].
  assert (Hp := array_sort_Permutation
                  (compareExpenses
                     (mkSortConfig (key sortConfig) (direction sortConfig)))
                  (filter (fun e => matchesSearch searchTerm e &&
                                    matchesCategory categoryFilter e)
                          (workspaceExpensesOf cw s))).
  unfold sortBy. split; [exact Hp|]. split.
  - intros e. split.
    + intros H. apply (Permutation_in _ Hp) in H.
      apply filter_In in H. destruct H as [H Hm].
      apply andb_true_iff in Hm. unfold workspaceExpensesOf in H.
      apply filter_In in H. destruct H as [H Hw]. apply String.eqb_eq in Hw.
      tauto.
    + intros (He & Hw & Hs & Hc).
      apply (Permutation_in _ (Permutation_sym Hp)).
      apply filter_In. split; [|now rewrite Hs, Hc].
      apply filter_In. split; [exact He | now apply String.eqb_eq].
  - intros -> ->. etransitivity; [exact Hp|].
    rewrite forallb_filter_id; [reflexivity|].
    apply forallb_forall. intros e _. unfold matchesSearch, matchesCategory.
    cbn [toLowerCase]. now rewrite includes_empty.
Qed.

Lemma lower_char_idem c : lower_char (lower_char c) = lower_char c.
Proof. destruct c as [[] [] [] [] [] [] [] []]; reflexivity. Qed.

Lemma toLowerCase_idem t : toLowerCase (toLowerCase t) = toLowerCase t.
Proof.
  induction t as [|c r IH]; cbn; [reflexivity|].
  now rewrite lower_char_idem, IH.
Qed.

(** X18. The search ignores the case of letters on both sides: two terms that
    differ only in case select the same expenses, and so do two expenses
    whose description and owner name differ only in case. *)
Theorem matchesSearch_ignores_case (t1 t2 : string) (e1 e2 : Expense) :
  sameUpToCase t1 t2 ->
  sameUpToCase (e_description e1) (e_description e2) ->
  sameUpToCase (e_userName e1) (e_userName e2) ->
  matchesSearch t1 e1 = matchesSearch t2 e2 /\
  matchesSearch (toLowerCase t1) e1 = matchesSearch t1 e1.
Proof.
  intros Ht Hd Hn. unfold matchesSearch.
  rewrite (sameUpToCase_toLowerCase _ _ Ht),
          (sameUpToCase_toLowerCase _ _ Hd),
          (sameUpToCase_toLowerCase _ _ Hn), toLowerCase_idem.
  split; reflexivity.
Qed.

(** *** The table comes out in order *)

Section SortedBy.
Context {A : Type}.
Variable cmp : A -> A -> Z.
Variable D : A -> Prop.

Let stays (a b : A) : Prop := (0 <? cmp a b) = false.

Hypothesis cmp_asym :
  forall a b, D a -> D b -> (0 <? cmp a b) = true -> (0 <? cmp b a) = false.
Hypothesis stays_trans :
  forall a b c, D a -> D b -> D c -> stays a b -> stays b c -> stays a c.

Lemma sort_insert_StronglySorted x l :
  D x -> Forall D l -> StronglySorted stays l ->
  StronglySorted stays (sort_insert cmp x l).
Proof.
  intros Dx Dl Hs. induction Hs as [|y r Hr IH Hy]; cbn [sort_insert].
  - repeat constructor.
  - inversion Dl as [|? ? Dy Dr]; subst.
    destruct (0 <? cmp x y) eqn:Hxy.
    + constructor; [now apply IH|].
      apply sort_insert_Forall; [|exact Hy].
      now apply cmp_asym.
    + constructor; [now constructor|].
      constructor; [exact Hxy|].
      rewrite Forall_forall in *. intros z Hz.
      apply (stays_trans x y z); auto.
Qed.

Lemma array_sort_StronglySorted l :
  Forall D l -> StronglySorted stays (array_sort cmp l).
Proof.
  induction 1 as [|x r Dx Dr IH]; cbn [array_sort fold_right];
    [constructor|].
  apply sort_insert_StronglySorted; [exact Dx | | exact IH].
  now apply array_sort_Forall.
Qed.
End SortedBy.

Lemma Qltb_false (x y : Q) :
  match (x ?= y)%Q with Lt => true | _ => false end = false <-> (y <= x)%Q.
Proof.
  destruct (Qcompare_spec x y) as [E|L|G]; split; try reflexivity;
    try discriminate; intros H.
  - rewrite E. apply Qle_refl.
  - exfalso. exact (Qlt_not_le _ _ L H).
  - now apply Qlt_le_weak.
Qed.

Lemma num_not_below_trans x y z :
  x <> NaN -> y <> NaN -> z <> NaN ->
  num_ltb y x = false -> num_ltb z y = false -> num_ltb z x = false.
Proof.
  destruct x as [|[]|x], y as [|[]|y], z as [|[]|z];
    cbn [num_ltb andb negb]; try congruence. intros _ _ _.
  rewrite !Qltb_false. intros H1 H2. eapply Qle_trans; eassumption.
Qed.

Lemma string_ltb_lt a b :
  String.ltb a b = true <-> OrderedTypeEx.String_as_OT.lt a b.
Proof.
  rewrite <- OrderedTypeEx.String_as_OT.cmp_lt.
  unfold String.ltb, OrderedTypeEx.String_as_OT.cmp.
  destruct (String.compare a b); split; congruence.
Qed.

Lemma string_ltb_false a b :
  String.ltb a b = false -> a = b \/ String.ltb b a = true.
Proof.
  unfold String.ltb. rewrite (String.compare_antisym a b).
  destruct (String.compare b a) eqn:E; cbn; try discriminate; auto.
  intros _. left. symmetry. now apply String.compare_eq_iff.
Qed.

Lemma string_not_below_trans x y z :
  String.ltb y x = false -> String.ltb z y = false -> String.ltb z x = false.
Proof.
  intros H1 H2. destruct (String.ltb z x) eqn:H3; [|reflexivity].
  exfalso.
  destruct (string_ltb_false _ _ H1) as [->|L1];
    [congruence|].
  destruct (string_ltb_false _ _ H2) as [->|L2];
    [pose proof (string_ltb_asym _ _ H3); congruence|].
  apply string_ltb_lt in L1, L2, H3.
  pose proof (OrderedTypeEx.String_as_OT.lt_trans _ _ _ L1
                (OrderedTypeEx.String_as_OT.lt_trans _ _ _ L2 H3)) as L.
  apply string_ltb_lt in L. now rewrite string_ltb_irrefl in L.
Qed.

Lemma field_not_below_trans k (a b c : Expense) :
  e_amount a <> NaN -> e_amount b <> NaN -> e_amount c <> NaN ->
  value_ltb (field k b) (field k a) = false ->
  value_ltb (field k c) (field k b) = false ->
  value_ltb (field k c) (field k a) = false.
Proof.
  intros Ha Hb Hc.
  destruct k; cbn [field value_ltb];
    try apply string_not_below_trans.
  now apply num_not_below_trans.
Qed.

Lemma StronglySorted_weaken {A : Type} (R R' : A -> A -> Prop) l :
  (forall a b, R a b -> R' a b) ->
  StronglySorted R l -> StronglySorted R' l.
Proof.
  intros HR. induction 1 as [|x r Hr IH Hx]; constructor; [exact IH|].
  eapply Forall_impl; [|exact Hx]. intros b. apply HR.
Qed.

(** X19. Provided no amount is [NaN], the table is ordered by the chosen
    column, whatever the column: sorted upwards no row is followed by a
    row with a smaller value, sorted downwards none is followed by a row
    with a larger one. *)
Theorem sortBy_sorted (es : list Expense) (k : ExpenseKey) :
  Forall (fun e => e_amount e <> NaN) es ->
  StronglySorted (fun a b => value_ltb (field k b) (field k a) = false)
                 (sortBy es k asc) /\
  StronglySorted (fun a b => value_ltb (field k a) (field k b) = false)
                 (sortBy es k desc).
Proof.
  intros Hok. unfold sortBy. split.
  - assert (H : StronglySorted
                  (fun a b =>
                     (0 <? compareExpenses (mkSortConfig k asc) a b) = false)
                  (array_sort (compareExpenses (mkSortConfig k asc)) es)).
    { apply (array_sort_StronglySorted _ (fun e => e_amount e <> NaN));
        [| |exact Hok].
      - intros a b _ _. rewrite !compareExpenses_asc. apply value_ltb_asym.
      - intros a b c Da Db Dc. rewrite !compareExpenses_asc.
        now apply field_not_below_trans. }
    eapply StronglySorted_weaken; [|exact H].
    intros a b. cbv beta. now rewrite compareExpenses_asc.
  - assert (H : StronglySorted
                  (fun a b =>
                     (0 <? compareExpenses (mkSortConfig k desc) a b) = false)
                  (array_sort (compareExpenses (mkSortConfig k desc)) es)).
    { apply (array_sort_StronglySorted _ (fun e => e_amount e <> NaN));
        [| |exact Hok].
      - intros a b _ _. rewrite !compareExpenses_desc. apply value_ltb_asym.
      - intros a b c Da Db Dc. rewrite !compareExpenses_desc.
        intros H1 H2. exact (field_not_below_trans k c b a Dc Db Da H2 H1). }
    eapply StronglySorted_weaken; [|exact H].
    intros a b. cbv beta. now rewrite compareExpenses_desc.
Qed.

(** ** The ledger *)

Lemma canModifyTransaction_with_expenses s es e :
  canModifyTransaction (with_expenses s es) e = canModifyTransaction s e.
Proof. reflexivity. Qed.

Lemma filter_idem {A : Type} (p : A -> bool) l :
  filter p (filter p l) = filter p l.
Proof.
  apply forallb_filter_id. apply forallb_forall. intros x Hx.
  now apply filter_In in Hx.
Qed.

(** X20. Deleting an expense is idempotent: a second confirmed delete of the
    same expense changes nothing more.  Afterwards the ledger holds no
    expense with that id, and deleting an id the ledger does not hold
    leaves the state as it is. *)
Theorem deleteExpense_idempotent (s : AppState) (e : Expense) :
  fst (deleteExpense (fst (deleteExpense s e true)) e true)
  = fst (deleteExpense s e true) /\
  (snd (deleteExpense s e true) = Done ->
   forall x, In x (expenses (fst (deleteExpense s e true))) ->
             e_id x <> e_id e) /\
  (Forall (fun x => e_id x <> e_id e) (expenses s) ->
   fst (deleteExpense s e true) = s).
Proof.
  unfold deleteExpense.
  destruct (canModifyTransaction s e) as [[|]|] eqn:Hc; cbn [fst snd].
  - rewrite canModifyTransaction_with_expenses, Hc. cbn [fst snd].
    split; [|split].
    + unfold with_expenses. cbn. now rewrite filter_idem.
    + intros _ x Hx. cbn in Hx. apply filter_In in Hx.
      destruct Hx as [_ Hx]. now apply negb_true_iff, String.eqb_neq in Hx.
    + intros Hall. destruct s as [ws us cid es au av mp]. cbn in *.
      unfold with_expenses. cbn. f_equal.
      apply forallb_filter_id. apply forallb_forall. intros x Hx.
      rewrite Forall_forall in Hall.
      now apply negb_true_iff, String.eqb_neq, Hall.
  - rewrite Hc. cbn. repeat split; discriminate.
  - rewrite Hc. cbn. repeat split; discriminate.
Qed.

(** X21. Adding an expense and deleting it again gives back the state one
    started from, provided the id drawn from the clock is not the id of an
    older expense (the delete goes by id and would take those too). *)
Theorem handleAddExpense_then_deleteExpense (s : AppState) (now : Z)
  (today description amount : string) (category : Category) :
  memberOfCurrentWorkspace s ->
  description <> "" -> amount <> "" ->
  Forall (fun x => e_id x <> Z_to_string now) (expenses s) ->
  exists e,
    handleAddExpense s now today description amount category
    = (with_expenses s (e :: expenses s), Done) /\
    deleteExpense (with_expenses s (e :: expenses s)) e true = (s, Done).
Proof.
  intros Hmem Hd Ha Hfresh.
  pose proof Hmem as (au & cw & Hau & Hcw & _).
  unfold handleAddExpense.
  apply truthy_true in Hd, Ha. rewrite Hd, Ha, Hau, Hcw. cbn [negb orb].
  eexists. split; [reflexivity|].
  unfold deleteExpense. rewrite canModifyTransaction_with_expenses.
  rewrite (proj2 (canModifyTransaction_member s _) Hmem).
  cbn [expenses with_expenses filter e_id]. rewrite String.eqb_refl.
  cbn [negb]. destruct s as [ws us cid es a av mp]. unfold with_expenses.
  cbn in *. do 2 f_equal.
  apply forallb_filter_id. apply forallb_forall. intros x Hx.
  rewrite Forall_forall in Hfresh.
  now apply negb_true_iff, String.eqb_neq, Hfresh.
Qed.

Lemma find_first {A : Type} (p : A -> bool) (l : list A) (x : A) :
  find p l = Some x <->
  exists before after,
    l = before ++ x :: after /\
    Forall (fun y => p y = false) before /\ p x = true.
Proof.
  split.
  - induction l as [|y r IH]; cbn [find]; [discriminate|].
    destruct (p y) eqn:Hy.
    + intros H. injection H as <-. exists [], r. repeat split; auto.
    + intros H. destruct (IH H) as (before & after & -> & Hb & Hx).
      exists (y :: before), after. repeat split; auto.
  - intros (before & after & -> & Hb & Hx).
    induction Hb as [|y r Hy Hr IH]; cbn [find app].
    + now rewrite Hx.
    + now rewrite Hy.
Qed.

Lemma find_nowhere {A : Type} (p : A -> bool) (l : list A) :
  find p l = None <-> Forall (fun y => p y = false) l.
Proof.
  split.
  - intros H. apply Forall_forall. intros y Hy. exact (find_none _ _ H _ Hy).
  - induction 1 as [|y r Hy Hr IH]; cbn [find]; [reflexivity|].
    now rewrite Hy.
Qed.

(** X22. The current workspace is undefined exactly when the state has no
    workspace.  Otherwise it is the first workspace carrying the current
    id, every workspace before it carrying another id; or, when no
    workspace carries the current id, the first workspace of all.  Nothing
    else is ever the current workspace. *)
Theorem currentWorkspace_fallback (s : AppState) :
  (currentWorkspace s = None <-> workspaces s = []) /\
  (forall cw,
     currentWorkspace s = Some cw <->
     (exists before after,
         workspaces s = before ++ cw :: after /\
         Forall (fun w => w_id w <> currentWorkspaceId s) before /\
         w_id cw = currentWorkspaceId s) \/
     (Forall (fun w => w_id w <> currentWorkspaceId s) (workspaces s) /\
      exists after, workspaces s = cw :: after)).
Proof.
  assert (Hoff : forall l : list Workspace,
             Forall (fun w => String.eqb (w_id w) (currentWorkspaceId s)
                              = false) l <->
             Forall (fun w => w_id w <> currentWorkspaceId s) l).
  { intros l. split; apply Forall_impl; intros w; apply String.eqb_neq. }
  split.
  - unfold currentWorkspace.
    destruct (find _ (workspaces s)) as [w|] eqn:E.
    + split; [discriminate|]. intros H. rewrite H in E. discriminate.
    + destruct (workspaces s); cbn; split; congruence.
  - intros cw. unfold currentWorkspace. split.
    + destruct (find _ (workspaces s)) as [w|] eqn:E.
      * intros H. injection H as <-. left.
        apply find_first in E. destruct E as (before & after & Hl & Hb & Hx).
        exists before, after. split; [exact Hl|].
        split; [now apply Hoff | now apply String.eqb_eq].
      * intros H. right. split; [now apply Hoff, find_nowhere|].
        destruct (workspaces s) as [|w r]; [discriminate|].
        injection H as <-. now exists r.
    + intros [(before & after & Hl & Hb & Hx)|[Hall (after & Hl)]].
      * assert (E : find (fun w => String.eqb (w_id w) (currentWorkspaceId s))
                         (workspaces s) = Some cw).
        { apply find_first. exists before, after. split; [exact Hl|].
          split; [now apply Hoff | now apply String.eqb_eq]. }
        now rewrite E.
      * apply Hoff, find_nowhere in Hall. rewrite Hall, Hl. reflexivity.
Qed.

Lemma num_sub_zero b : num_same (num_sub b (num_of_Z 0)) b.
Proof.
  unfold num_sub, num_of_Z.
  destruct b as [|[]|q]; cbn [num_opp num_add num_same Bool.eqb negb];
    try reflexivity.
  rewrite !Qred_correct. ring.
Qed.

(** X23. The figures of the dashboard count the current workspace only.  With
    no expense filed under it the total spent is zero and what remains is
    the budget; and an expense filed under another workspace changes none
    of the three figures. *)
Theorem totalSpent_scoped (s : AppState) (cw : Workspace) :
  currentWorkspace s = Some cw ->
  (Forall (fun e => e_workspaceId e <> w_id cw) (expenses s) ->
   totalSpent s = Some (Num 0) /\
   exists r, budgetRemaining s = Some r /\ num_same r (w_budget cw)) /\
  (forall e, e_workspaceId e <> w_id cw ->
     totalSpent (with_expenses s (e :: expenses s)) = totalSpent s /\
     budgetRemaining (with_expenses s (e :: expenses s)) = budgetRemaining s /\
     spendingPercentage (with_expenses s (e :: expenses s))
     = spendingPercentage s).
Proof.
  intros Hcw. split.
  - intros Hall.
    assert (Hnone : workspaceExpensesOf cw s = []).
    { unfold workspaceExpensesOf. induction Hall as [|e r He Hr IH];
        [reflexivity|]. cbn [filter].
      now rewrite (proj2 (String.eqb_neq _ _) He). }
    unfold totalSpent, workspaceExpenses, budgetRemaining.
    rewrite Hcw. cbn [option_map]. rewrite Hnone. split; [reflexivity|].
    eexists. split; [reflexivity|]. cbn [sumAmounts fold_left].
    apply num_sub_zero.
  - intros e He.
    assert (Hcw' : currentWorkspace (with_expenses s (e :: expenses s))
                   = Some cw) by exact Hcw.
    assert (Hsame : workspaceExpensesOf cw (with_expenses s (e :: expenses s))
                    = workspaceExpensesOf cw s).
    { unfold workspaceExpensesOf. cbn [expenses with_expenses filter].
      now rewrite (proj2 (String.eqb_neq _ _) He). }
    unfold totalSpent, workspaceExpenses, budgetRemaining, spendingPercentage.
    rewrite Hcw', Hcw. cbn [option_map]. rewrite Hsame. repeat split.
Qed.

(** ** Granting and revoking access *)

(** X24. In a reachable state, when the administrator grants a known user
    access to a workspace that already has a member and then revokes it,
    both presses succeed and the state is again the one before the
    grant. *)
Theorem toggleWorkspaceMember_grant_revoke (s : AppState) (userId : string)
  (user : User) (cw : Workspace) :
  reachable s -> isAdmin s = true ->
  find (fun u => String.eqb (u_id u) userId) (users s) = Some user ->
  currentWorkspace s = Some cw ->
  Forall (fun u => u_id u <> userId) (w_users cw) ->
  w_users cw <> [] ->
  exists s1,
    toggleWorkspaceMember s userId = (s1, Done) /\
    workspaces s1 = [with_w_users cw (w_users cw ++ [user])] /\
    toggleWorkspaceMember s1 userId = (s, Done).
Proof.
  intros Hs Hadm Huser Hcw Hnot Hne.
  destruct (reachable_current s Hs)
    as ([_ Hcid] & cw' & Hcw' & Hws & Hwid).
  assert (cw' = cw) by congruence. subst cw'.
  assert (Hhere : String.eqb (w_id cw) (currentWorkspaceId s) = true)
    by (rewrite Hcid, Hwid; reflexivity).
  assert (Hfind : find (fun w => String.eqb (w_id w) (currentWorkspaceId s))
                       (workspaces s) = Some cw).
  { rewrite Hws. cbn [find]. now rewrite Hhere. }
  pose proof (find_some _ _ Huser) as [_ Hid]. apply String.eqb_eq in Hid.
  eexists. split;
    [exact (toggleWorkspaceMember_add s userId Hadm cw Hfind user Huser Hnot)|].
  rewrite Hws. cbn [map]. rewrite Hhere. split; [reflexivity|].
  set (s1 := with_workspaces s [with_w_users cw (w_users cw ++ [user])]).
  assert (Hfind1 : find (fun w => String.eqb (w_id w) (currentWorkspaceId s1))
                        (workspaces s1)
                   = Some (with_w_users cw (w_users cw ++ [user]))).
  { subst s1. cbn. rewrite Hhere. reflexivity. }
  destruct (w_users cw) as [|o r] eqn:Hus; [congruence|].
  inversion Hnot as [|? ? Ho Hr]; subst.
  rewrite (toggleWorkspaceMember_remove s1 (u_id user) Hadm _ Hfind1 user Huser
             user o).
  - subst s1. cbn [workspaces with_workspaces map currentWorkspaceId].
    cbn [with_w_users w_id]. rewrite Hhere.
    cbn [w_users with_w_users]. rewrite filter_app. cbn [filter].
    rewrite String.eqb_refl. cbn [negb]. rewrite app_nil_r.
    rewrite (proj2 (String.eqb_neq _ _) Ho). cbn [negb].
    rewrite forallb_filter_id.
    + destruct s as [ws us cid es a av mp]. cbn in Hws. subst ws.
      unfold with_workspaces. cbn. do 3 f_equal.
      destruct cw; cbn in *. now rewrite Hus.
    + apply forallb_forall. intros x Hx. rewrite Forall_forall in Hr.
      now apply negb_true_iff, String.eqb_neq, Hr.
  - cbn [w_users with_w_users]. apply in_or_app. right. now left.
  - reflexivity.
  - cbn [w_users with_w_users]. now left.
  - exact Ho.
Qed.

(** ** The category chart *)





Section SumByCategory.
Variable step : NumRecord -> Expense -> NumRecord.
Hypothesis step_keys : forall m e,
  map fst (step m e)
  = if existsb (String.eqb (category_value (e_category e))) (map fst m)
    then map fst m else map fst m ++ [category_value (e_category e)].

End SumByCategory.















(** With an amount that is no number the record does not hold the sum:
    [|| 0] starts the category again after a [NaN]. *)
Example sumByCategory_restarts :
  let es := [ mkExpense "1" NaN "Void" FOOD "2024-01-01" "u1" "System Admin"
                        "" "w1";
              mkExpense "2" (Num 5) "Lunch" FOOD "2024-01-02" "u1"
                        "System Admin" "" "w1" ] in
  sumByCategory es = [("Food & Dining", Num 5)] /\
  categorySum "Food & Dining" es = NaN.
Proof. vm_compute. split; reflexivity. Qed.


(** ** Owner fields stay in step with the directory *)

Lemma find_ext_eq {A : Type} (p q : A -> bool) l :
  (forall x, p x = q x) -> find p l = find q l.
Proof.
  intros H. induction l as [|x r IH]; cbn [find]; [reflexivity|].
  now rewrite H, IH.
Qed.

Lemma find_map_same {A : Type} (p : A -> bool) (f : A -> A) l :
  (forall x, p (f x) = p x) -> find p (map f l) = option_map f (find p l).
Proof.
  intros H. induction l as [|x r IH]; cbn [find map]; [reflexivity|].
  rewrite H. destruct (p x); [reflexivity | exact IH].
Qed.

Lemma find_app_first {A : Type} (p : A -> bool) l l' :
  find p (l ++ l')
  = match find p l with Some x => Some x | None => find p l' end.
Proof.
  induction l as [|x r IH]; cbn [find app]; [reflexivity|].
  destruct (p x); [reflexivity | exact IH].
Qed.

Lemma find_filter_kept {A : Type} (p q : A -> bool) l :
  (forall x, p x = true -> q x = true) -> find p (filter q l) = find p l.
Proof.
  intros H. induction l as [|x r IH]; cbn [find filter]; [reflexivity|].
  destruct (q x) eqn:Hq; cbn [find].
  - destruct (p x); [reflexivity | exact IH].
  - destruct (p x) eqn:Hp; [|exact IH]. apply H in Hp. congruence.
Qed.

Lemma ownersInSync_step (s : AppState) (a : Action) :
  freshSignUp s a -> ownersInSync s -> ownersInSync (fst (handle s a)).
Proof.
  intros Hfresh Hsync.
  destruct a; cbn [handle]; unfold_handlers;
    try (split_handler; unfold ownersInSync in *; state_fields; exact Hsync).
  - (* SignUp *)
    destruct (emailTaken s email); [exact Hsync|].
    destruct (negb _); [exact Hsync|].
    unfold ownersInSync. state_fields. intros e u He Hu.
    rewrite find_app_first in Hu.
    destruct (find _ (users s)) as [u0|] eqn:E.
    + injection Hu as <-. exact (Hsync e u0 He E).
    + cbn [find newUser u_id] in Hu.
      cbn [freshSignUp] in Hfresh. rewrite Forall_forall in Hfresh.
      specialize (Hfresh e He).
      destruct (String.eqb_spec (newUserId now) (e_userId e)) as [E'|_];
        [congruence | discriminate].
  - (* UpdateTheme *)
    destruct (activeUserId s) as [[|c r]|]; try exact Hsync.
    unfold ownersInSync. state_fields. intros e u He Hu.
    rewrite find_map_same in Hu.
    + destruct (find _ (users s)) as [u0|] eqn:E; [|discriminate].
      injection Hu as <-. destruct (Hsync e u0 He E) as [Hn Hav].
      match goal with |- context [if ?b then _ else _] => destruct b end;
        split; assumption.
    + intros x.
      match goal with |- context [if ?b then _ else _] => destruct b end;
        reflexivity.
  - (* SaveSelfProfile *)
    destruct (activeUser s) as [au|] eqn:Hau; [|exact Hsync].
    unfold ownersInSync. state_fields. intros e' u' He' Hu'.
    apply in_map_iff in He'. destruct He' as (e & <- & He).
    set (upd := with_profile au name email avatar) in *.
    assert (Hid : e_userId (if String.eqb (e_userId e) (u_id au)
                            then with_owner e (u_name upd) (u_avatar upd)
                            else e) = e_userId e)
      by (now destruct (String.eqb (e_userId e) (u_id au))).
    rewrite Hid in Hu'. rewrite find_map_same in Hu'.
    + destruct (find _ (users s)) as [u0|] eqn:E; [|discriminate].
      injection Hu' as <-.
      pose proof (find_some _ _ E) as [_ Hu0]. apply String.eqb_eq in Hu0.
      rewrite Hu0.
      destruct (String.eqb (e_userId e) (u_id au)); [split; reflexivity|].
      exact (Hsync e u0 He E).
    + intros x.
      destruct (String.eqb_spec (u_id x) (u_id au)) as [Ex|_];
        [cbn [with_profile u_id]; now rewrite Ex | reflexivity].
  - (* DeleteUser *)
    destruct (negb (isAdmin s)); [exact Hsync|].
    destruct (eqb_opt userId (activeUserId s)); [exact Hsync|].
    destruct confirmed; [|exact Hsync].
    unfold ownersInSync. state_fields. intros e u He Hu.
    destruct (String.eqb_spec (e_userId e) userId) as [Ee|Ee].
    + pose proof (find_some _ _ Hu) as [Hin Hid].
      apply filter_In in Hin. destruct Hin as [_ Hkeep].
      apply String.eqb_eq in Hid.
      apply negb_true_iff, String.eqb_neq in Hkeep. congruence.
    + rewrite find_filter_kept in Hu; [exact (Hsync e u He Hu)|].
      intros x Hx. apply String.eqb_eq in Hx.
      apply negb_true_iff, String.eqb_neq. congruence.
  - (* AddExpense *)
    destruct (negb (truthy description) || negb (truthy amount));
      [exact Hsync|].
    destruct (activeUser s) as [au|] eqn:Hau; [|exact Hsync].
    destruct (currentWorkspace s) as [cw|]; [|exact Hsync].
    unfold ownersInSync. state_fields. intros e u [<-|He] Hu;
      [|exact (Hsync e u He Hu)].
    cbn [e_userId e_userName e_userAvatar] in *.
    pose proof (activeUser_In s au Hau) as [_ Hact].
    unfold activeUser in Hau. rewrite Hact in Hau. cbn [eqb_opt] in Hau.
    rewrite Hau in Hu. injection Hu as <-. split; reflexivity.
  - (* DeleteExpense *)
    destruct (canModifyTransaction s expense) as [[|]|]; try exact Hsync.
    destruct confirmed; [|exact Hsync].
    unfold ownersInSync. state_fields. intros e u He Hu.
    apply filter_In in He. exact (Hsync e u (proj1 He) Hu).
  - (* DeleteSelectedExpenses *)
    destruct confirmed; [|exact Hsync].
    unfold ownersInSync. state_fields. intros e u He Hu.
    apply filter_In in He. exact (Hsync e u (proj1 He) Hu).
Qed.

(** X26. Along every run from the default state in which no sign-up draws the
    owner id of an expense already in the ledger, each expense carries the
    name and avatar that the directory holds for its owner, as long as the
    directory holds that owner: adding copies them, a profile edit rewrites
    them, and nothing else touches either side. *)
Theorem run_ownersInSync (script : list Action) (s : AppState) :
  freshScript initialState script ->
  run initialState script = Some s ->
  ownersInSync s.
Proof.
  assert (G : forall script t, ownersInSync t -> freshScript t script ->
                               run t script = Some s -> ownersInSync s).
  { clear script. induction script as [|a r IH]; cbn [run freshScript].
    - intros t Ht _ E. now injection E as <-.
    - intros t Ht [Hf Hr] E. destruct (offered t a); [|discriminate].
      eapply IH; [|exact Hr|exact E]. now apply ownersInSync_step. }
  apply G. intros e u [].
Qed.

(* ================================================================== *)
(** ** Instances *)

Example chartDataOf_budgetScenario :
  chartData budgetScenario
  = Some [("Food & Dining", Num 500); ("Transportation", Num 150)].
Proof. vm_compute. reflexivity. Qed.

Lemma bobRevoked_reachable : reachable bobRevoked.
Proof.
  apply (run_reachable bobRevokedScript initialState); [constructor|].
  vm_compute. reflexivity.
Qed.

Lemma run_workspace_frame_witness :
  run initialState lockedOutScript = Some lockedOut /\
  currentWorkspaceId lockedOut = currentWorkspaceId initialState.
Proof.
  assert (H : run initialState lockedOutScript = Some lockedOut)
    by (vm_compute; reflexivity).
  split; [exact H|].
  exact (proj1 (proj2 (run_workspace_frame lockedOutScript initialState
                         lockedOut H))).
Defined.

Lemma handle_no_new_admin_witness :
  exists u, In u (users initialState) /\ u_id u = "u1" /\ u_role u = Admin.
Proof.
  apply (handle_no_new_admin initialState
           (SignUp 5 "Bob" "bob@x.io" "pw" "pw") systemAdmin).
  - left. reflexivity.
  - reflexivity.
Defined.

Lemma reachable_singleWorkspace_witness :
  singleWorkspace lockedOut /\
  snd (handle lockedOut (AddExpense 9 "2024-01-02" "Tea" "2" FOOD))
  <> TypeError.
Proof.
  split.
  - exact (proj1 (reachable_singleWorkspace lockedOut lockedOut_reachable)).
  - exact (proj1 (proj2 (proj2 (reachable_singleWorkspace lockedOut
                                  lockedOut_reachable))) _).
Defined.

Lemma reachable_membersKnown_activeKnown_witness :
  membersKnown lockedOut /\ activeKnown lockedOut.
Proof.
  pose proof (reachable_membersKnown_activeKnown lockedOut
                lockedOut_reachable) as H.
  split; [exact (proj1 H) | exact (proj1 (proj2 H))].
Defined.

Lemma reachable_rolesFixed_witness :
  isAdmin bobRevoked = true /\ activeUserId bobRevoked = Some "u1".
Proof.
  split; [reflexivity|].
  exact (proj2 (reachable_rolesFixed bobRevoked bobRevoked_reachable)
               eq_refl).
Defined.

Lemma reachable_expensesFiled_witness :
  workspaceExpenses lockedOut = Some (expenses lockedOut).
Proof.
  exact (proj2 (reachable_expensesFiled lockedOut lockedOut_reachable)).
Defined.

Lemma signed_out_idle_witness :
  activeUserId bobLoggedOut = None /\
  fst (handle bobLoggedOut (AddExpense 9 "2024-01-02" "Tea" "2" FOOD))
  = bobLoggedOut.
Proof.
  split; [reflexivity|].
  exact (proj1 (signed_out_idle bobLoggedOut
                  (AddExpense 9 "2024-01-02" "Tea" "2" FOOD)
                  eq_refl eq_refl)).
Defined.

Lemma member_cannot_govern_witness :
  isAdmin memberState = false /\
  governed (fst (handle memberState (SaveSelfProfile "Rob" "r@x.io" "r.png")))
  = governed memberState /\
  setBudget memberState "0" = (memberState, Ignored).
Proof.
  assert (H : forall now n e p c,
             SaveSelfProfile "Rob" "r@x.io" "r.png" <> SignUp now n e p c)
    by (intros; discriminate).
  split; [reflexivity|]. split.
  - exact (proj1 (member_cannot_govern memberState
                    (SaveSelfProfile "Rob" "r@x.io" "r.png") eq_refl H)).
  - exact (proj2 (proj2 (proj2
             (proj2 (member_cannot_govern memberState
                       (SaveSelfProfile "Rob" "r@x.io" "r.png") eq_refl H)
                    "u1" true "0")))).
Defined.

Lemma handleSignIn_outcomes_witness :
  handleSignIn initialState (Some "u1") "letmein"
  = (initialState, InvalidCredentials) /\
  fst (handleSignIn initialState (Some "u1") "admin") = adminSignedIn.
Proof.
  split.
  - refine (proj2 (proj2 (handleSignIn_outcomes initialState "u1" "letmein"))
                  _).
    discriminate.
  - exact (proj1 (proj2 (handleSignIn_outcomes initialState "u1" "admin"))
                 eq_refl).
Defined.

Lemma handleSignUp_outcomes_witness :
  handleSignUp initialState 5 "Bob" "bob@x.io" "pw" "wp"
  = (initialState, PasswordMismatch).
Proof.
  refine (proj2 (proj2 (handleSignUp_outcomes initialState 5 "Bob" "bob@x.io"
                          "pw" "wp")) eq_refl _).
  discriminate.
Defined.

Lemma handleSaveSelfProfile_shares_email_witness :
  activeUser memberState = Some bob /\
  In systemAdmin (users memberState) /\
  In (with_profile bob "Bob" "admin@smartspend.com" "b.png")
     (users (fst (handleSaveSelfProfile memberState "Bob"
                    "admin@smartspend.com" "b.png"))).
Proof.
  assert (Hin : In systemAdmin (users memberState)) by (left; reflexivity).
  assert (Hne : u_id systemAdmin <> u_id bob) by discriminate.
  split; [reflexivity|]. split; [exact Hin|].
  exact (proj1 (proj2 (proj2
           (handleSaveSelfProfile_shares_email memberState bob systemAdmin
              "Bob" "b.png" eq_refl Hin Hne)))).
Defined.

Lemma handleUpdateTheme_frame_witness :
  handleUpdateTheme initialState "#dc2626" = (initialState, Ignored) /\
  snd (handleUpdateTheme memberState "#dc2626") = Done.
Proof.
  split.
  - exact (proj1 (handleUpdateTheme_frame initialState "#dc2626")
                 (or_introl eq_refl)).
  - refine (proj1 (proj2 (handleUpdateTheme_frame memberState "#dc2626")
                         "u-5" eq_refl _)).
    discriminate.
Defined.

Lemma handleRevealPassword_exact_witness :
  handleRevealPassword memberState "u-5" (Some "admin")
  = AccessGranted "Bob" (Some "pw").
Proof.
  apply (proj2 (handleRevealPassword_exact memberState "u-5" (Some "admin")
                  "Bob" (Some "pw"))).
  exists "admin", bob. repeat split.
Defined.

Lemma toggleExpenseSelection_flips_witness :
  ids_include ["7"] "9" = false /\
  toggleExpenseSelection (toggleExpenseSelection ["7"] "9") "9" = ["7"].
Proof.
  split; [reflexivity|].
  exact (proj2 (toggleExpenseSelection_flips ["7"] "9") eq_refl).
Defined.

Lemma toggleAllExpenses_then_delete_witness :
  toggleAllExpenses [] [lunch] = ["7"] /\
  toggleAllExpenses ["stale"] [lunch] = [].
Proof.
  split.
  - refine (proj1 (proj2 (toggleAllExpenses_then_delete lockedOut [] [lunch])
                         _)).
    discriminate.
  - exact (proj1 (toggleAllExpenses_then_delete lockedOut ["stale"] [lunch])
                 eq_refl).
Defined.

Lemma requestSort_presses_witness :
  requestSort (requestSort (mkSortConfig k_date desc) k_date) k_date
  = mkSortConfig k_date desc /\
  requestSort (mkSortConfig k_date desc) k_amount = mkSortConfig k_amount asc.
Proof.
  split.
  - exact (proj1 (requestSort_presses (mkSortConfig k_date desc) k_date)
                 eq_refl).
  - refine (proj1 (proj2 (requestSort_presses (mkSortConfig k_date desc)
                            k_amount) _)).
    discriminate.
Defined.

Lemma filteredExpenses_content_witness :
  currentWorkspace budgetScenario = Some
    (mkWorkspace "w1" "Main Workspace" "$" (num_of_Z 1000) DEFAULT_USERS) /\
  exists rows,
    filteredExpenses budgetScenario "din" "Food & Dining"
                     (mkSortConfig k_amount desc) = Some rows.
Proof.
  split; [reflexivity|].
  destruct (filteredExpenses_content budgetScenario _ "din" "Food & Dining"
              (mkSortConfig k_amount desc) eq_refl) as (rows & H & _).
  exists rows. exact H.
Defined.

Lemma matchesSearch_ignores_case_witness :
  matchesSearch "LUNCH" lunch = matchesSearch "lunch" lunch.
Proof.
  refine (proj1 (matchesSearch_ignores_case "LUNCH" "lunch" lunch lunch
                   _ _ _)).
  - repeat (constructor; [(left; reflexivity) || (right; reflexivity)|]).
    constructor.
  - repeat (constructor; [left; reflexivity|]). constructor.
  - repeat (constructor; [left; reflexivity|]). constructor.
Defined.

Lemma sortBy_sorted_witness :
  StronglySorted
    (fun a b => value_ltb (field k_amount b) (field k_amount a) = false)
    (sortBy tiedExpenses k_amount asc).
Proof.
  refine (proj1 (sortBy_sorted tiedExpenses k_amount _)).
  repeat constructor; discriminate.
Defined.

Lemma deleteExpense_idempotent_witness :
  fst (deleteExpense crossState lunch true)
  = with_expenses crossState [elsewhere]
  /\ fst (deleteExpense (with_expenses crossState [elsewhere]) lunch true)
     = with_expenses crossState [elsewhere].
Proof.
  split; [reflexivity|].
  refine (proj2 (proj2 (deleteExpense_idempotent
                          (with_expenses crossState [elsewhere]) lunch)) _).
  repeat constructor. discriminate.
Defined.

Lemma handleAddExpense_then_deleteExpense_witness :
  exists e,
    handleAddExpense crossState 11 "2024-03-01" "Tea" "2" FOOD
    = (with_expenses crossState (e :: expenses crossState), Done) /\
    deleteExpense (with_expenses crossState (e :: expenses crossState)) e true
    = (crossState, Done).
Proof.
  apply (handleAddExpense_then_deleteExpense crossState 11 "2024-03-01"
           "Tea" "2" FOOD crossState_member).
  - discriminate.
  - discriminate.
  - repeat constructor; discriminate.
Defined.

Lemma currentWorkspace_fallback_witness :
  currentWorkspace (with_workspaces initialState []) = None /\
  currentWorkspace
    (with_workspaces initialState
       [sideWorkspace; DEFAULT_WORKSPACE; with_w_name DEFAULT_WORKSPACE "Copy"])
  = Some DEFAULT_WORKSPACE /\
  currentWorkspace (with_workspaces initialState [sideWorkspace; sideWorkspace])
  = Some sideWorkspace.
Proof.
  split; [|split].
  - exact (proj2 (proj1 (currentWorkspace_fallback
                           (with_workspaces initialState []))) eq_refl).
  - apply (proj2 (currentWorkspace_fallback _)). left.
    exists [sideWorkspace], [with_w_name DEFAULT_WORKSPACE "Copy"].
    split; [reflexivity|]. split; [|reflexivity].
    repeat constructor. discriminate.
  - apply (proj2 (currentWorkspace_fallback _)). right.
    split; [repeat constructor; discriminate|].
    exists [sideWorkspace]. reflexivity.
Defined.

Lemma totalSpent_scoped_witness :
  totalSpent initialState = Some (Num 0) /\
  totalSpent (with_expenses budgetScenario
                (elsewhere :: expenses budgetScenario))
  = totalSpent budgetScenario.
Proof.
  split.
  - refine (proj1 (proj1 (totalSpent_scoped initialState DEFAULT_WORKSPACE
                            eq_refl) _)).
    constructor.
  - refine (proj1 (proj2 (totalSpent_scoped budgetScenario _ eq_refl)
                         elsewhere _)).
    discriminate.
Defined.

Lemma toggleWorkspaceMember_grant_revoke_witness :
  exists s1,
    toggleWorkspaceMember bobRevoked "u-5" = (s1, Done) /\
    workspaces s1
    = [with_w_users DEFAULT_WORKSPACE (w_users DEFAULT_WORKSPACE ++ [bob])] /\
    toggleWorkspaceMember s1 "u-5" = (bobRevoked, Done).
Proof.
  apply (toggleWorkspaceMember_grant_revoke bobRevoked "u-5" bob
           DEFAULT_WORKSPACE bobRevoked_reachable).
  - reflexivity.
  - reflexivity.
  - reflexivity.
  - repeat constructor. discriminate.
  - discriminate.
Defined.


Lemma run_ownersInSync_witness :
  freshScript initialState lockedOutScript /\ ownersInSync lockedOut.
Proof.
  assert (H : freshScript initialState lockedOutScript)
    by (cbn; repeat constructor).
  split; [exact H|].
  refine (run_ownersInSync lockedOutScript lockedOut H _).
  vm_compute. reflexivity.
Defined.

Lemma toggleWorkspaceMember_nonEmpty_witness :
  nonEmptyWorkspaces bobRevoked /\
  nonEmptyWorkspaces (fst (toggleWorkspaceMember bobRevoked "u1")).
Proof.
  assert (H : nonEmptyWorkspaces bobRevoked)
    by (repeat constructor; discriminate).
  split; [exact H|].
  exact (toggleWorkspaceMember_nonEmpty bobRevoked "u1" H).
Defined.

Lemma toggleWorkspaceMember_last_witness :
  fst (toggleWorkspaceMember bobRevoked "u1") = bobRevoked /\
  snd (toggleWorkspaceMember bobRevoked "u1") = LastMemberProtection.
Proof.
  assert (Hne : w_users DEFAULT_WORKSPACE <> []) by discriminate.
  assert (Hall : Forall (fun u => u_id u = "u1") (w_users DEFAULT_WORKSPACE))
    by (repeat constructor).
  pose proof (toggleWorkspaceMember_last bobRevoked "u1" eq_refl
                DEFAULT_WORKSPACE eq_refl Hne Hall) as [H1 H2].
  split; [exact H1|]. exact (H2 systemAdmin eq_refl).
Defined.
